(** * CloudEvent (pydantic v2 representation): model and properties

    Shallow embedding of [cloudevents/pydantic/v2/event.py].

    - A [CloudEvent] instance is a Python object; its state is its attribute
      namespace, a finite map from attribute names to Python values, which
      [getattr], [setattr] and [delattr] read and change.  The hosting
      framework keeps the declared fields in the instance dictionary
      [__dict__] and the extension attributes ([extra = "allow"]) apart from
      it, so [__dict__] is the part of the namespace that the declared fields
      make up.
    - A Python [dict] passed to the constructor is the list of its items in
      insertion order where the order decides the result (the key
      normalization), and a finite map elsewhere.
    - Exceptions are the error case of [result]; a method that mutates the
      instance returns the new state.
    - What the file imports from the rest of the SDK ([attribute],
      [conversion]) and the coercions of the hosting framework are variables
      of [Section CloudEvent]; [Sample] instantiates them to run the model.
    - Names are ASCII strings; [lower] is [str.lower] on ASCII. *)

From Stdlib Require Import NArith ZArith Lia.
From Stdlib Require Import Strings.Byte Strings.Ascii Strings.String.
From stdpp Require Import gmap strings list fin_maps.

Local Open Scope string_scope.

(** ** Python values and exceptions *)

(** The Python values that occur as attribute values and payloads. *)
#[local] Unset Elimination Schemes.
Inductive value : Type :=
| VNone
| VBool (b : bool)
| VInt (z : Z)
| VStr (s : string)
| VBytes (bs : list byte)
| VDatetime (t : Z)            (* a [datetime.datetime], as a timestamp *)
| VSpecVersion (s : string)    (* the [attribute.SpecVersion] member whose value is [s] *)
| VList (l : list value)
| VDict (d : list (string * value)).
#[local] Set Elimination Schemes.

(** The exceptions the modelled code can raise. *)
Inductive exn : Type :=
| IncompatibleArgumentsError (msg : string)
| TypeError (msg : string)
| ValueError (msg : string)
| binascii_Error (msg : string)
| ValidationError (fields : list string)
| KeyError (key : string)
| AttributeError (name : string)
| JSONDecodeError (msg : string).

Inductive result (A : Type) : Type :=
| Ok (a : A)
| Raise (e : exn).
Arguments Ok {A} a.
Arguments Raise {A} e.

(** Sequencing: an exception raised by the first computation propagates. *)
Global Instance result_bind : MBind result := λ A B k r,
  match r with
  | Ok a => k a
  | Raise e => Raise e
  end.

Definition is_incompatible_arguments (e : exn) : bool :=
  match e with IncompatibleArgumentsError _ => true | _ => false end.

(** [ValueError] and its subclass [binascii.Error]. *)
Definition is_value_error (e : exn) : bool :=
  match e with
  | ValueError _ | binascii_Error _ => true
  | _ => false
  end.

Definition is_none (v : value) : bool :=
  match v with VNone => true | _ => false end.

(** ** [str.lower], on ASCII names *)

Definition lower_ascii (c : ascii) : ascii :=
  let n := N_of_ascii c in
  if ((65 <=? n) && (n <=? 90))%N then ascii_of_N (n + 32) else c.

Fixpoint lower (s : string) : string :=
  match s with
  | EmptyString => EmptyString
  | String c s' => String (lower_ascii c) (lower s')
  end.

(** ** [base64]: the standard alphabet, encoding, and Python's lenient decoder *)

Module Base64.

Definition table_b2a_base64 : string :=
  "ABCDEFGHIJKLMNOPQRSTUVWXYZabcdefghijklmnopqrstuvwxyz0123456789+/".

Definition BASE64_PAD : ascii := "="%char.

Definition b2a (n : N) : ascii :=
  match String.get (N.to_nat n) table_b2a_base64 with
  | Some c => c
  | None => BASE64_PAD
  end.

(** Inverse table: the sextet of an alphabet character, [None] for every
    other character. *)
Definition table_a2b_base64 (c : ascii) : option N :=
  let n := N_of_ascii c in
  if ((65 <=? n) && (n <=? 90))%N then Some (n - 65)%N
  else if ((97 <=? n) && (n <=? 122))%N then Some (n - 71)%N
  else if ((48 <=? n) && (n <=? 57))%N then Some (n + 4)%N
  else if (n =? 43)%N then Some 62%N
  else if (n =? 47)%N then Some 63%N
  else None.

Definition byte_of_N (n : N) : byte :=
  match Byte.of_N (n mod 256) with
  | Some b => b
  | None => x00
  end.

(** The base64 encoding of a byte string (RFC 4648, with padding). *)
Fixpoint b64encode (bs : list byte) : string :=
  match bs with
  | [] => ""
  | [b0] =>
      let n0 := Byte.to_N b0 in
      String (b2a (N.shiftr n0 2))
        (String (b2a (N.shiftl (N.land n0 3) 4)) "==")
  | [b0; b1] =>
      let n0 := Byte.to_N b0 in
      let n1 := Byte.to_N b1 in
      String (b2a (N.shiftr n0 2))
        (String (b2a (N.lor (N.shiftl (N.land n0 3) 4) (N.shiftr n1 4)))
           (String (b2a (N.shiftl (N.land n1 15) 2)) "="))
  | b0 :: b1 :: b2 :: rest =>
      let n0 := Byte.to_N b0 in
      let n1 := Byte.to_N b1 in
      let n2 := Byte.to_N b2 in
      String (b2a (N.shiftr n0 2))
        (String (b2a (N.lor (N.shiftl (N.land n0 3) 4) (N.shiftr n1 4)))
           (String (b2a (N.lor (N.shiftl (N.land n1 15) 2) (N.shiftr n2 6)))
              (String (b2a (N.land n2 63)) (b64encode rest))))
  end.

(** The decoding loop of [binascii.a2b_base64] in its default, lenient mode:
    characters outside the alphabet are skipped, a complete pad sequence
    ends the input, and leftover sextets are an error. *)
Fixpoint a2b_base64_loop (ascii_data : string) (quad_pos pads : nat)
    (leftchar : N) (bin_data : list byte) : result (list byte) :=
  match ascii_data with
  | EmptyString =>
      match quad_pos with
      | 0 => Ok bin_data
      | 1 => Raise (binascii_Error "Invalid base64-encoded string")
      | _ => Raise (binascii_Error "Incorrect padding")
      end
  | String this_ch rest =>
      if Ascii.eqb this_ch BASE64_PAD then
        if ((2 <=? quad_pos) && (4 <=? quad_pos + S pads))%nat then Ok bin_data
        else a2b_base64_loop rest quad_pos
               (if (2 <=? quad_pos)%nat then S pads else pads) leftchar bin_data
      else
        match table_a2b_base64 this_ch with
        | None => a2b_base64_loop rest quad_pos pads leftchar bin_data
        | Some v =>
            match quad_pos with
            | 0 => a2b_base64_loop rest 1 0 v bin_data
            | 1 =>
                a2b_base64_loop rest 2 0 (N.land v 15)
                  (bin_data ++ [byte_of_N (N.lor (N.shiftl leftchar 2) (N.shiftr v 4))])
            | 2 =>
                a2b_base64_loop rest 3 0 (N.land v 3)
                  (bin_data ++ [byte_of_N (N.lor (N.shiftl leftchar 4) (N.shiftr v 2))])
            | _ =>
                a2b_base64_loop rest 0 0 0
                  (bin_data ++ [byte_of_N (N.lor (N.shiftl leftchar 6) v)])
            end
        end
  end.

Definition a2b_base64 (s : string) : result (list byte) :=
  a2b_base64_loop s 0 0 0 [].

Fixpoint is_ascii_string (s : string) : bool :=
  match s with
  | EmptyString => true
  | String c s' => (N_of_ascii c <? 128)%N && is_ascii_string s'
  end.

Definition string_of_bytes (bs : list byte) : string :=
  string_of_list_ascii (map ascii_of_byte bs).

(** [base64.b64decode(s)]: a [str] must be ASCII, a [bytes] is taken as it
    is, any other value is a type error. *)
Definition b64decode (s : value) : result value :=
  match s with
  | VStr txt =>
      if is_ascii_string txt then
        bs ← a2b_base64 txt ; Ok (VBytes bs)
      else Raise (ValueError "string argument should contain only ASCII characters")
  | VBytes raw =>
      bs ← a2b_base64 (string_of_bytes raw) ; Ok (VBytes bs)
  | _ => Raise (TypeError "argument should be a bytes-like object or ASCII string")
  end.

(** Bounded exhaustive checks, used to settle the bit identities of the
    codec by evaluation. *)
Fixpoint all_below (k : nat) (P : N -> bool) : bool :=
  match k with
  | O => true
  | S k' => P (N.of_nat k') && all_below k' P
  end.

Definition all_below2 (k : nat) (P : N -> N -> bool) : bool :=
  all_below k (fun a => all_below k (P a)).

End Base64.

(** ** The declared fields of the model *)

(** Field types that the hosting framework validates by coercion. *)
Inductive base_type : Type := TStr | TSpecVersion | TDatetime.

(** Type annotations of the declared fields: [typing.Any], a coerced type,
    [typing.Optional]. *)
Inductive annotation : Type :=
| TAny
| TBase (b : base_type)
| TOptional (a : annotation).

(** How a declared field is filled in when the input omits it. *)
Inductive default_rule : Type :=
| Required
| Default (v : value)
| DefaultFactory (f : unit -> value).

Record FieldInfo : Type := Field {
  field_annotation : annotation;
  field_default : default_rule
}.

(** Modelled from the spec: the constant [attribute.DEFAULT_SPECVERSION] is
    not part of the file; the spec gives the default specversion as the
    member ["1.0"] of the specversion enumeration. *)
Definition DEFAULT_SPECVERSION : value := VSpecVersion "1.0".

(** The names of the fields that the class body declares, in declaration
    order. *)
Definition declared_fields : list string :=
  ["data"; "source"; "id"; "type"; "specversion"; "time"; "subject";
   "datacontenttype"; "dataschema"].

(** The raw input of model validation: a mapping, or any other object. *)
Inductive raw_input : Type :=
| Mapping (d : gmap string value)
| Instance (o : value).

(** A sample instantiation of the collaborators, on which the model runs on
    concrete inputs. *)
Module Sample.

Definition coerce (b : base_type) (v : value) : option value :=
  match b, v with
  | TStr, VStr _ => Some v
  | TSpecVersion, VSpecVersion _ => Some v
  | TSpecVersion, VStr s => if String.eqb s "1.0" then Some (VSpecVersion s) else None
  | TDatetime, VDatetime _ => Some v
  | _, _ => None
  end.

Definition default_id_selection_algorithm (_ : unit) : string :=
  "3c5b1a52-6f0e-4c7b-9d2e-0a1b2c3d4e5f".

Definition default_time_selection_algorithm (_ : unit) : Z := 1522949460%Z.

Definition best_effort_encode_attribute_value (v : value) : value :=
  match v with
  | VSpecVersion s => VStr s
  | _ => v
  end.

(** The instance that a successful construction returns (the empty
    dictionary stands in when the construction raises). *)
Definition instance (r : result (gmap string value)) : gmap string value :=
  match r with
  | Ok e => e
  | Raise _ => ∅
  end.

Definition succeeds (r : result (gmap string value)) : bool :=
  match r with
  | Ok _ => true
  | Raise _ => false
  end.

End Sample.

(** ** The class [CloudEvent] *)

Section CloudEvent.

#[local] Set Default Proof Using "Type".

(** What the file imports from the rest of the SDK and from the hosting
    framework.  The two default hooks stand for the value each returns on
    the call made by one construction. *)
Variable default_id_selection_algorithm : unit -> string.
Variable default_time_selection_algorithm : unit -> Z.
Variable coerce : base_type -> value -> option value.
Variable best_effort_encode_attribute_value : value -> value.
Variable to_json : gmap string value -> result (list byte).
Variable json_loads : list byte -> result value.

(** A [str] is accepted unchanged where a [str] is declared. *)
Hypothesis coerce_str : forall s, coerce TStr (VStr s) = Some (VStr s).

(** The class body, in declaration order. *)
Definition model_fields : list (string * FieldInfo) :=
  [ ("data", Field (TOptional TAny) (Default VNone));
    ("source", Field (TBase TStr) Required);
    ("id", Field (TBase TStr)
             (DefaultFactory (fun u => VStr (default_id_selection_algorithm u))));
    ("type", Field (TBase TStr) Required);
    ("specversion", Field (TBase TSpecVersion) (Default DEFAULT_SPECVERSION));
    ("time", Field (TOptional (TBase TDatetime))
               (DefaultFactory (fun u => VDatetime (default_time_selection_algorithm u))));
    ("subject", Field (TOptional (TBase TStr)) (Default VNone));
    ("datacontenttype", Field (TOptional (TBase TStr)) (Default VNone));
    ("dataschema", Field (TOptional (TBase TStr)) (Default VNone)) ].

(** *** Validation by the hosting framework ([extra = "allow"]) *)

Fixpoint validate (a : annotation) (v : value) : option value :=
  match a with
  | TAny => Some v
  | TBase b => coerce b v
  | TOptional a' => if is_none v then Some VNone else validate a' v
  end.

(** The validated value of one declared field, [None] when the field is
    invalid or missing without a default. *)
Definition validate_field (input : gmap string value)
    (f : string * FieldInfo) : option value :=
  match input !! f.1 with
  | Some v => validate (field_annotation f.2) v
  | None =>
      match field_default f.2 with
      | Required => None
      | Default v => Some v
      | DefaultFactory g => Some (g tt)
      end
  end.

Definition field_errors (fields : list (string * FieldInfo))
    (input : gmap string value) : list string :=
  omap (fun f => match validate_field input f with
                 | Some _ => None
                 | None => Some f.1
                 end) fields.

Definition field_values (fields : list (string * FieldInfo))
    (input : gmap string value) : list (string * value) :=
  omap (fun f => match validate_field input f with
                 | Some v => Some (f.1, v)
                 | None => None
                 end) fields.

(** Inputs on which every declared field validates: the required fields are
    present and each declared field that is given has an acceptable value. *)
Definition valid_fields (fields : list (string * FieldInfo))
    (input : gmap string value) : Prop :=
  Forall (fun f => is_Some (validate_field input f)) fields.

(** Keys that match no declared field are kept as they are. *)
Definition extra_fields (fields : list (string * FieldInfo))
    (input : gmap string value) : gmap string value :=
  filter (fun kv : string * value => kv.1 ∉ fields.*1) input.

(** *** The base64 pre-validation hook *)

Definition check_base64_data_input (data : raw_input) : result raw_input :=
  match data with
  | Mapping d =>
      match d !! "data_base64" with
      | Some v =>
          if is_none v then Ok data
          else
            decoded ← Base64.b64decode v;
            Ok (Mapping (delete "data_base64" (<["data" := decoded]> d)))
      | None => Ok data
      end
  | Instance _ => Ok data
  end.

(** Model validation: the hook runs first, then every declared field is
    validated and all violated fields are reported together.  The hook is a
    validator of the framework: a [ValueError] that it raises (a
    [binascii.Error] is one) is reported as a [ValidationError] that names
    no field; any other exception leaves the validation as it is. *)
Definition model_validate (input : raw_input) : result (gmap string value) :=
  match check_base64_data_input input with
  | Raise e => if is_value_error e then Raise (ValidationError []) else Raise e
  | Ok (Mapping d) =>
      match field_errors model_fields d with
      | [] => Ok (list_to_map (field_values model_fields d) ∪ extra_fields model_fields d)
      | errs => Raise (ValidationError errs)
      end
  | Ok (Instance _) => Raise (ValidationError [])
  end.

(** [super().__init__(data=data, **kwargs)] *)
Definition super__init__ (data : value) (kwargs : gmap string value)
    : result (gmap string value) :=
  match kwargs !! "data" with
  | Some _ => Raise (TypeError "got multiple values for keyword argument 'data'")
  | None => model_validate (Mapping (<["data" := data]> kwargs))
  end.

(** *** The constructor *)

(** [{k.lower(): v for k, v in attributes.items()}] *)
Definition lower_keys (items : list (string * value)) : gmap string value :=
  foldl (fun m kv => <[lower kv.1 := kv.2]> m) ∅ items.

(** [attributes] lists the items of the mapping in insertion order, [None]
    when the argument is omitted; the result is the attribute namespace of
    the new instance. *)
Definition __init__ (attributes : option (list (string * value)))
    (data : value) (kwargs : gmap string value) : result (gmap string value) :=
  kwargs' ←
    match attributes with
    | Some ((_ :: _) as items) =>
        if bool_decide (size kwargs ≠ 0) then
          Raise (IncompatibleArgumentsError "Attributes dict and kwargs are incompatible.")
        else Ok (lower_keys items ∪ kwargs)
    | _ => Ok kwargs
    end;
  super__init__ data kwargs'.

(** The keyword arguments that [__init__] hands to [super().__init__] when
    it does not raise: the lowercased mapping merged over [kwargs] for a
    non-empty mapping, [kwargs] otherwise. *)
Definition merged_kwargs (attributes : option (list (string * value)))
    (kwargs : gmap string value) : gmap string value :=
  match attributes with
  | Some ((_ :: _) as items) => lower_keys items ∪ kwargs
  | _ => kwargs
  end.

Definition create (attributes : list (string * value)) (data : value)
    : result (gmap string value) :=
  __init__ (Some attributes) data ∅.

(** *** Accessors and mutation *)

Definition _ce_json_dumps (self : gmap string value) : result value :=
  bs ← to_json self; json_loads bs.

(** The serialization contract in the spec's words: the tree is obtained by
    re-parsing the canonical JSON bytes of the shared structured-mode
    encoder; nothing is dumped field by field. *)
Definition structured_json_tree (self : gmap string value) : result value :=
  match to_json self with
  | Ok canonical => json_loads canonical
  | Raise e => Raise e
  end.

(** [self.__dict__]: the instance dictionary holds the declared fields
    only; an extension attribute is an attribute of the instance that is
    not in it. *)
Definition __dict__ (self : gmap string value) : gmap string value :=
  filter (fun kv : string * value => kv.1 ∈ declared_fields) self.

Definition _get_attributes (self : gmap string value) : gmap string value :=
  best_effort_encode_attribute_value
    <$> filter (fun kv : string * value => kv.1 ∉ ["data"; "base64_data"])
          (__dict__ self).

Definition get_data (self : gmap string value) : result value :=
  match self !! "data" with
  | Some v => Ok v
  | None => Raise (AttributeError "data")
  end.

Definition setattr (self : gmap string value) (name : string) (v : value)
    : result (gmap string value) :=
  Ok (<[name := v]> self).

Definition delattr (self : gmap string value) (name : string)
    : result (gmap string value) :=
  match self !! name with
  | Some _ => Ok (delete name self)
  | None => Raise (AttributeError name)
  end.

Definition __setitem__ (self : gmap string value) (key : string) (v : value)
    : result (gmap string value) :=
  if bool_decide (key ≠ "data") then setattr self key v
  else Ok self.

Definition __delitem__ (self : gmap string value) (key : string)
    : result (gmap string value) :=
  if bool_decide (key = "data") then Raise (KeyError key)
  else delattr self key.

(** ** Properties of the base64 codec *)

Lemma all_below_spec k P n :
  Base64.all_below k P = true -> (n < N.of_nat k)%N -> P n = true.
Proof.
  induction k as [|k IH]; simpl; [lia|].
  intros [Hk Hrest]%andb_true_iff Hn.
  destruct (decide (n = N.of_nat k)) as [->|Hne]; [exact Hk|].
  apply IH; [exact Hrest|lia].
Qed.

Lemma all_below2_spec k P a b :
  Base64.all_below2 k P = true ->
  (a < N.of_nat k)%N -> (b < N.of_nat k)%N -> P a b = true.
Proof.
  intros H Ha Hb. unfold Base64.all_below2 in H.
  apply (all_below_spec k (P a)); [|exact Hb].
  exact (all_below_spec k _ a H Ha).
Qed.

Lemma to_N_lt_256 (b : byte) : (Byte.to_N b < N.of_nat 256)%N.
Proof. pose proof (Byte.to_N_bounded b). lia. Qed.

Lemma byte_of_N_to_N (b : byte) : Base64.byte_of_N (Byte.to_N b) = b.
Proof.
  unfold Base64.byte_of_N. pose proof (Byte.to_N_bounded b).
  rewrite N.mod_small by lia. by rewrite Byte.of_to_N.
Qed.

(** Every sextet is mapped by the alphabet to a character that is not the
    pad, is ASCII, and is mapped back to the sextet. *)
Lemma b2a_decodes n :
  (n < 64)%N ->
  Base64.table_a2b_base64 (Base64.b2a n) = Some n
  /\ Ascii.eqb (Base64.b2a n) Base64.BASE64_PAD = false
  /\ (N_of_ascii (Base64.b2a n) <? 128)%N = true.
Proof.
  intros Hn.
  assert (Hall : Base64.all_below 64 (fun n =>
            match Base64.table_a2b_base64 (Base64.b2a n) with
            | Some m => (m =? n)%N
            | None => false
            end
            && negb (Ascii.eqb (Base64.b2a n) Base64.BASE64_PAD)
            && (N_of_ascii (Base64.b2a n) <? 128)%N) = true)
    by (vm_compute; reflexivity).
  apply (all_below_spec _ _ n) in Hall; [|exact Hn].
  apply andb_true_iff in Hall as [[H1 H2]%andb_true_iff H3].
  destruct (Base64.table_a2b_base64 (Base64.b2a n)) as [m|]; [|discriminate].
  apply N.eqb_eq in H1 as ->. apply negb_true_iff in H2. auto.
Qed.

(** The bit identities between three bytes and their four sextets. *)
Lemma sextet_bounds (b0 b1 : byte) :
  let n0 := Byte.to_N b0 in
  let n1 := Byte.to_N b1 in
  (N.shiftr n0 2 < 64)%N
  /\ (N.shiftl (N.land n0 3) 4 < 64)%N
  /\ (N.lor (N.shiftl (N.land n0 3) 4) (N.shiftr n1 4) < 64)%N
  /\ (N.shiftl (N.land n0 15) 2 < 64)%N
  /\ (N.lor (N.shiftl (N.land n0 15) 2) (N.shiftr n1 6) < 64)%N
  /\ (N.land n0 63 < 64)%N.
Proof.
  intros n0 n1.
  assert (Hall : Base64.all_below2 256 (fun n0 n1 =>
            (N.shiftr n0 2 <? 64)%N
            && (N.shiftl (N.land n0 3) 4 <? 64)%N
            && (N.lor (N.shiftl (N.land n0 3) 4) (N.shiftr n1 4) <? 64)%N
            && (N.shiftl (N.land n0 15) 2 <? 64)%N
            && (N.lor (N.shiftl (N.land n0 15) 2) (N.shiftr n1 6) <? 64)%N
            && (N.land n0 63 <? 64)%N) = true)
    by (vm_compute; reflexivity).
  apply (all_below2_spec _ _ n0 n1) in Hall; try apply to_N_lt_256.
  repeat (apply andb_true_iff in Hall as [Hall ?]).
  repeat split; by apply N.ltb_lt.
Qed.

Lemma sextet_bytes (b0 b1 : byte) :
  let n0 := Byte.to_N b0 in
  let n1 := Byte.to_N b1 in
  let s1 := N.lor (N.shiftl (N.land n0 3) 4) (N.shiftr n1 4) in
  let s2 := N.lor (N.shiftl (N.land n0 15) 2) (N.shiftr n1 6) in
  N.lor (N.shiftl (N.shiftr n0 2) 2) (N.shiftr s1 4) = n0
  /\ N.lor (N.shiftl (N.shiftr n0 2) 2) (N.shiftr (N.shiftl (N.land n0 3) 4) 4) = n0
  /\ N.land s1 15 = N.shiftr n1 4
  /\ N.lor (N.shiftl (N.shiftr n0 4) 4) (N.shiftr s2 2) = n0
  /\ N.lor (N.shiftl (N.shiftr n0 4) 4) (N.shiftr (N.shiftl (N.land n0 15) 2) 2) = n0
  /\ N.land s2 3 = N.shiftr n1 6
  /\ N.lor (N.shiftl (N.shiftr n0 6) 6) (N.land n0 63) = n0.
Proof.
  intros n0 n1 s1 s2. subst s1 s2.
  assert (Hall : Base64.all_below2 256 (fun n0 n1 =>
            let s1 := N.lor (N.shiftl (N.land n0 3) 4) (N.shiftr n1 4) in
            let s2 := N.lor (N.shiftl (N.land n0 15) 2) (N.shiftr n1 6) in
            (N.lor (N.shiftl (N.shiftr n0 2) 2) (N.shiftr s1 4) =? n0)%N
            && (N.lor (N.shiftl (N.shiftr n0 2) 2)
                  (N.shiftr (N.shiftl (N.land n0 3) 4) 4) =? n0)%N
            && (N.land s1 15 =? N.shiftr n1 4)%N
            && (N.lor (N.shiftl (N.shiftr n0 4) 4) (N.shiftr s2 2) =? n0)%N
            && (N.lor (N.shiftl (N.shiftr n0 4) 4)
                  (N.shiftr (N.shiftl (N.land n0 15) 2) 2) =? n0)%N
            && (N.land s2 3 =? N.shiftr n1 6)%N
            && (N.lor (N.shiftl (N.shiftr n0 6) 6) (N.land n0 63) =? n0)%N) = true)
    by (vm_compute; reflexivity).
  apply (all_below2_spec _ _ n0 n1) in Hall; try apply to_N_lt_256.
  cbv zeta in Hall.
  repeat (apply andb_true_iff in Hall as [Hall ?]).
  repeat split; by apply N.eqb_eq.
Qed.

(** One alphabet character moves the decoder to the next position of the
    quad. *)
Lemma a2b_loop_sextet n rest quad_pos pads leftchar out :
  (n < 64)%N ->
  Base64.a2b_base64_loop (String (Base64.b2a n) rest) quad_pos pads leftchar out
  = match quad_pos with
    | 0 => Base64.a2b_base64_loop rest 1 0 n out
    | 1 =>
        Base64.a2b_base64_loop rest 2 0 (N.land n 15)
          (out ++ [Base64.byte_of_N (N.lor (N.shiftl leftchar 2) (N.shiftr n 4))])
    | 2 =>
        Base64.a2b_base64_loop rest 3 0 (N.land n 3)
          (out ++ [Base64.byte_of_N (N.lor (N.shiftl leftchar 4) (N.shiftr n 2))])
    | _ =>
        Base64.a2b_base64_loop rest 0 0 0
          (out ++ [Base64.byte_of_N (N.lor (N.shiftl leftchar 6) n)])
    end.
Proof.
  intros Hn. destruct (b2a_decodes n Hn) as (Htab & Hpad & _).
  cbn [Base64.a2b_base64_loop]. by rewrite Hpad, Htab.
Qed.

Lemma a2b_loop_pad2 leftchar out :
  Base64.a2b_base64_loop "==" 2 0 leftchar out = Ok out.
Proof. reflexivity. Qed.

Lemma a2b_loop_pad1 leftchar out :
  Base64.a2b_base64_loop "=" 3 0 leftchar out = Ok out.
Proof. reflexivity. Qed.

Lemma a2b_loop_b64encode k : forall (bs out : list byte),
  length bs <= k ->
  Base64.a2b_base64_loop (Base64.b64encode bs) 0 0 0 out = Ok (out ++ bs)%list.
Proof.
  induction k as [|k IH]; intros bs out Hlen.
  - destruct bs; [|simpl in Hlen; lia]. simpl. by rewrite app_nil_r.
  - destruct bs as [|b0 [|b1 [|b2 rest]]].
    + simpl. by rewrite app_nil_r.
    + cbn [Base64.b64encode].
      destruct (sextet_bounds b0 b0) as (H0 & H1 & _).
      destruct (sextet_bytes b0 b0) as (_ & E0 & _).
      rewrite !a2b_loop_sextet by assumption.
      rewrite E0, byte_of_N_to_N. apply a2b_loop_pad2.
    + cbn [Base64.b64encode].
      destruct (sextet_bounds b0 b1) as (H0 & _ & H1 & _).
      destruct (sextet_bounds b1 b1) as (_ & _ & _ & H2 & _).
      destruct (sextet_bytes b0 b1) as (E0 & _ & E1 & _).
      destruct (sextet_bytes b1 b1) as (_ & _ & _ & _ & E2 & _).
      rewrite !a2b_loop_sextet by assumption.
      rewrite E0, E1, E2, !byte_of_N_to_N, <- app_assoc.
      apply a2b_loop_pad1.
    + cbn [Base64.b64encode].
      destruct (sextet_bounds b0 b1) as (H0 & _ & H1 & _).
      destruct (sextet_bounds b1 b2) as (_ & _ & _ & _ & H2 & _).
      destruct (sextet_bounds b2 b2) as (_ & _ & _ & _ & _ & H3).
      destruct (sextet_bytes b0 b1) as (E0 & _ & E1 & _).
      destruct (sextet_bytes b1 b2) as (_ & _ & _ & E2 & _ & E3 & _).
      destruct (sextet_bytes b2 b2) as (_ & _ & _ & _ & _ & _ & E4).
      rewrite !a2b_loop_sextet by assumption.
      rewrite E0, E1, E2, E3, E4, !byte_of_N_to_N.
      rewrite IH by (simpl in Hlen; lia).
      by rewrite <- !app_assoc.
Qed.

Lemma is_ascii_b64encode k : forall (bs : list byte),
  length bs <= k -> Base64.is_ascii_string (Base64.b64encode bs) = true.
Proof.
  induction k as [|k IH]; intros bs Hlen.
  - by destruct bs; [|simpl in Hlen; lia].
  - destruct bs as [|b0 [|b1 [|b2 rest]]]; [done|..];
      cbn [Base64.b64encode Base64.is_ascii_string].
    + destruct (sextet_bounds b0 b0) as (H0 & H1 & _).
      apply b2a_decodes in H0 as (_ & _ & ->), H1 as (_ & _ & ->). done.
    + destruct (sextet_bounds b0 b1) as (H0 & _ & H1 & _).
      destruct (sextet_bounds b1 b1) as (_ & _ & _ & H2 & _).
      apply b2a_decodes in H0 as (_ & _ & ->), H1 as (_ & _ & ->),
        H2 as (_ & _ & ->). done.
    + destruct (sextet_bounds b0 b1) as (H0 & _ & H1 & _).
      destruct (sextet_bounds b1 b2) as (_ & _ & _ & _ & H2 & _).
      destruct (sextet_bounds b2 b2) as (_ & _ & _ & _ & _ & H3).
      apply b2a_decodes in H0 as (_ & _ & ->), H1 as (_ & _ & ->),
        H2 as (_ & _ & ->), H3 as (_ & _ & ->).
      rewrite IH by (simpl in Hlen; lia). done.
Qed.

(** Decoding the base64 encoding of a byte string gives the byte string
    back. *)
Lemma b64decode_b64encode (bs : list byte) :
  Base64.b64decode (VStr (Base64.b64encode bs)) = Ok (VBytes bs).
Proof.
  unfold Base64.b64decode, Base64.a2b_base64.
  rewrite (is_ascii_b64encode (length bs)) by lia.
  by rewrite (a2b_loop_b64encode (length bs)) by lia.
Qed.

(** ** Properties of key normalization *)

Lemma lower_ascii_idemp (c : ascii) : lower_ascii (lower_ascii c) = lower_ascii c.
Proof. destruct c as [[] [] [] [] [] [] [] []]; reflexivity. Qed.

Lemma lower_idemp (s : string) : lower (lower s) = lower s.
Proof.
  induction s as [|c s IH]; [reflexivity|].
  simpl. by rewrite lower_ascii_idemp, IH.
Qed.

Lemma foldl_lower_keys_lowercase (items : list (string * value)) :
  forall (m : gmap string value) (k : string),
    (forall k', is_Some (m !! k') -> lower k' = k') ->
    is_Some (foldl (fun m kv => <[lower kv.1 := kv.2]> m) m items !! k) ->
    lower k = k.
Proof.
  induction items as [|[k0 v0] items IH]; intros m k Hm Hk; simpl in Hk.
  - by apply Hm.
  - apply (IH _ _) in Hk; [exact Hk|].
    intros k' Hk'. simpl in Hk'.
    destruct (decide (lower k0 = k')) as [<-|Hne].
    + apply lower_idemp.
    + rewrite lookup_insert_ne in Hk' by exact Hne. by apply Hm.
Qed.

Lemma lower_keys_lowercase (items : list (string * value)) (k : string) :
  is_Some (lower_keys items !! k) -> lower k = k.
Proof.
  apply foldl_lower_keys_lowercase.
  intros k' Hk'. rewrite lookup_empty in Hk'. by destruct Hk'.
Qed.

(** The last item wins when two keys of the mapping differ only by case. *)
Lemma lower_keys_snoc (items : list (string * value)) (k : string) (v : value) :
  lower_keys (items ++ [(k, v)]) = <[lower k := v]> (lower_keys items).
Proof. unfold lower_keys. by rewrite foldl_app. Qed.

(** ** Properties of validation *)

Lemma field_errors_nil (fields : list (string * FieldInfo)) (input : gmap string value) :
  field_errors fields input = [] <->
  Forall (fun f => is_Some (validate_field input f)) fields.
Proof.
  induction fields as [|f fields IH]; simpl.
  - split; [constructor|done].
  - destruct (validate_field input f) as [v|] eqn:Hf.
    + rewrite IH. split.
      * intros H. constructor; [by rewrite Hf|exact H].
      * by inversion 1.
    + split; [done|]. inversion 1 as [|? ? [? Hx]]; subst.
      rewrite Hf in Hx. discriminate.
Qed.

Lemma field_values_keys (fields : list (string * FieldInfo)) (input : gmap string value) :
  (field_values fields input).*1 `sublist_of` fields.*1.
Proof.
  induction fields as [|f fields IH]; simpl; [constructor|].
  destruct (validate_field input f); simpl.
  - by apply sublist_skip.
  - by apply sublist_cons.
Qed.

Lemma field_values_elem (fields : list (string * FieldInfo))
    (input : gmap string value) (f : string * FieldInfo) (v : value) :
  f ∈ fields -> validate_field input f = Some v ->
  (f.1, v) ∈ field_values fields input.
Proof.
  intros Hin Hf. unfold field_values. apply list_elem_of_omap.
  exists f. split; [exact Hin|]. by rewrite Hf.
Qed.

(** A declared field of the validated instance holds its validated value. *)
Lemma validated_lookup_field (fields : list (string * FieldInfo))
    (input extras : gmap string value) (f : string * FieldInfo) (v : value) :
  NoDup fields.*1 -> f ∈ fields -> validate_field input f = Some v ->
  (list_to_map (field_values fields input) ∪ extras) !! f.1 = Some v.
Proof.
  intros Hnd Hin Hf. apply lookup_union_Some_l.
  apply elem_of_list_to_map_1.
  - eapply sublist_NoDup; [exact Hnd|apply field_values_keys].
  - by apply field_values_elem.
Qed.

(** Every other key of the validated instance comes from the input
    unchanged. *)
Lemma validated_lookup_extra (fields : list (string * FieldInfo))
    (input : gmap string value) (k : string) :
  k ∉ fields.*1 ->
  (list_to_map (field_values fields input) ∪ extra_fields fields input) !! k
  = input !! k.
Proof.
  intros Hk.
  assert (Hnone : (list_to_map (field_values fields input) : gmap string value) !! k = None).
  { apply not_elem_of_list_to_map_1. intros Hin. apply Hk.
    eapply elem_of_sublist; [exact Hin|apply field_values_keys]. }
  rewrite lookup_union_r by exact Hnone.
  unfold extra_fields. destruct (input !! k) as [v|] eqn:Hv.
  - by apply map_lookup_filter_Some.
  - apply map_lookup_filter_None. left. exact Hv.
Qed.

Lemma validated_keys (fields : list (string * FieldInfo))
    (input : gmap string value) (k : string) :
  is_Some ((list_to_map (field_values fields input) ∪ extra_fields fields input) !! k) ->
  k ∈ fields.*1 \/ is_Some (input !! k).
Proof.
  intros Hk. destruct (decide (k ∈ fields.*1)) as [Hin|Hnin]; [by left|].
  right. by rewrite validated_lookup_extra in Hk.
Qed.

(** ** Exceptions raised below the constructor *)

Lemma a2b_loop_raises (s : string) : forall quad_pos pads leftchar out e,
  Base64.a2b_base64_loop s quad_pos pads leftchar out = Raise e ->
  is_incompatible_arguments e = false.
Proof.
  induction s as [|c s IH]; intros quad_pos pads leftchar out e;
    cbn [Base64.a2b_base64_loop].
  - destruct quad_pos as [|[|?]]; intros H; inversion H; reflexivity.
  - repeat case_match; solve [done | apply IH].
Qed.

Lemma b64decode_raises (v : value) (e : exn) :
  Base64.b64decode v = Raise e -> is_incompatible_arguments e = false.
Proof.
  unfold Base64.b64decode, Base64.a2b_base64.
  destruct v; try (intros [= <-]; reflexivity).
  - destruct (Base64.is_ascii_string s); [|intros [= <-]; reflexivity].
    destruct (Base64.a2b_base64_loop s 0 0 0 []) eqn:Hloop; [done|].
    intros [= <-]. by eapply a2b_loop_raises.
  - destruct (Base64.a2b_base64_loop _ 0 0 0 []) eqn:Hloop; [done|].
    intros [= <-]. by eapply a2b_loop_raises.
Qed.

(** What the hook returns on a mapping: the mapping itself when it has no
    non-null [data_base64], else the mapping with [data] set to the decoded
    bytes and [data_base64] removed. *)
Lemma check_base64_data_input_mapping (d : gmap string value) (out : raw_input) :
  check_base64_data_input (Mapping d) = Ok out ->
  (out = Mapping d
   /\ (d !! "data_base64" = None \/ d !! "data_base64" = Some VNone))
  \/ (exists v decoded,
        d !! "data_base64" = Some v /\ is_none v = false
        /\ Base64.b64decode v = Ok decoded
        /\ out = Mapping (delete "data_base64" (<["data" := decoded]> d))).
Proof.
  unfold check_base64_data_input.
  destruct (d !! "data_base64") as [v|] eqn:Hv.
  - destruct (is_none v) eqn:Hnone.
    + intros [= <-]. left. split; [done|]. right. by destruct v.
    + destruct (Base64.b64decode v) as [decoded|] eqn:Hdec; [|done].
      intros [= <-]. right. by exists v, decoded.
  - intros [= <-]. left. auto.
Qed.

Lemma check_base64_data_input_raises (input : raw_input) (e : exn) :
  check_base64_data_input input = Raise e -> is_incompatible_arguments e = false.
Proof.
  unfold check_base64_data_input.
  destruct input as [d|o]; [|done].
  destruct (d !! "data_base64") as [v|]; [|done].
  destruct (is_none v); [done|].
  destruct (Base64.b64decode v) eqn:Hdec; [done|].
  intros [= <-]. by eapply b64decode_raises.
Qed.

Lemma model_validate_raises (input : raw_input) (e : exn) :
  model_validate input = Raise e -> is_incompatible_arguments e = false.
Proof.
  unfold model_validate.
  destruct (check_base64_data_input input) as [checked|e'] eqn:Hcheck.
  - destruct checked as [d|o]; [|intros [= <-]; reflexivity].
    destruct (field_errors model_fields d); [done|].
    intros [= <-]; reflexivity.
  - destruct (is_value_error e'); intros [= <-]; [reflexivity|].
    by eapply check_base64_data_input_raises.
Qed.

Lemma super__init___raises (data : value) (kwargs : gmap string value) (e : exn) :
  super__init__ data kwargs = Raise e -> is_incompatible_arguments e = false.
Proof.
  unfold super__init__. destruct (kwargs !! "data").
  - intros [= <-]; reflexivity.
  - apply model_validate_raises.
Qed.

(** The constructor raises the incompatibility error exactly when the
    mapping is non-empty and there is a keyword field. *)
Lemma __init___incompatible_inv (attributes : option (list (string * value)))
    (data : value) (kwargs : gmap string value) (e : exn) :
  __init__ attributes data kwargs = Raise e ->
  is_incompatible_arguments e = true ->
  exists items, attributes = Some items /\ items <> [] /\ kwargs <> ∅.
Proof.
  unfold __init__. intros Hraise Hinc.
  destruct attributes as [[|kv items]|]; simpl in Hraise.
  - apply super__init___raises in Hraise. congruence.
  - destruct (bool_decide (size kwargs ≠ 0)) eqn:Hsize.
    + apply bool_decide_eq_true in Hsize. apply map_size_non_empty_iff in Hsize.
      exists (kv :: items). by repeat split.
    + simpl in Hraise. apply super__init___raises in Hraise. congruence.
  - apply super__init___raises in Hraise. congruence.
Qed.

(** ** Construction: incompatible arguments *)

(** C1. Constructing with a non-empty attribute mapping together with at
    least one keyword field raises [IncompatibleArgumentsError], so no
    instance is created; constructing with a non-empty mapping and no
    keyword field, or with keyword fields alone, never raises that error. *)
Theorem init_incompatible_arguments (A : list (string * value)) (data : value)
    (K : gmap string value) :
  A <> [] ->
  (K <> ∅ ->
   __init__ (Some A) data K
   = Raise (IncompatibleArgumentsError "Attributes dict and kwargs are incompatible."))
  /\ (forall msg, __init__ (Some A) data ∅ <> Raise (IncompatibleArgumentsError msg))
  /\ (forall msg, __init__ None data K <> Raise (IncompatibleArgumentsError msg)).
Proof.
  intros HA. split; [|split].
  - intros HK. unfold __init__. destruct A as [|kv A]; [done|].
    apply map_size_non_empty_iff in HK.
    by rewrite bool_decide_eq_true_2.
  - intros msg Hraise.
    apply __init___incompatible_inv in Hraise as (? & _ & _ & Hne); done.
  - intros msg Hraise.
    apply __init___incompatible_inv in Hraise as (? & [=] & _); done.
Qed.

(** C10. An explicitly supplied empty mapping behaves as an omitted one: the
    construction with [{}] and keyword fields [K] does not raise
    [IncompatibleArgumentsError] and gives the event that [K] alone gives
    (for the same values returned by the default hooks). *)
Theorem init_empty_mapping_is_omitted (data : value) (K : gmap string value) :
  __init__ (Some []) data K = __init__ None data K
  /\ forall msg, __init__ (Some []) data K <> Raise (IncompatibleArgumentsError msg).
Proof.
  split; [reflexivity|].
  intros msg Hraise.
  apply __init___incompatible_inv in Hraise as (items & [= <-] & Hne & _); done.
Qed.

(** ** Construction: what the new instance holds *)

Lemma model_fields_NoDup : NoDup model_fields.*1.
Proof. apply (bool_decide_unpack _). vm_compute. exact I. Qed.

Lemma model_fields_lowercase (k : string) : k ∈ model_fields.*1 -> lower k = k.
Proof.
  simpl. rewrite !elem_of_cons, elem_of_nil.
  intros H. repeat destruct H as [->|H]; try reflexivity. done.
Qed.

Lemma model_validate_ok (d d' : gmap string value) :
  check_base64_data_input (Mapping d) = Ok (Mapping d') ->
  valid_fields model_fields d' ->
  model_validate (Mapping d)
  = Ok (list_to_map (field_values model_fields d') ∪ extra_fields model_fields d').
Proof.
  intros Hcheck Hvalid. unfold model_validate. rewrite Hcheck.
  apply field_errors_nil in Hvalid. by rewrite Hvalid.
Qed.

Lemma model_validate_ok_inv (d e : gmap string value) :
  model_validate (Mapping d) = Ok e ->
  exists d',
    check_base64_data_input (Mapping d) = Ok (Mapping d')
    /\ valid_fields model_fields d'
    /\ e = list_to_map (field_values model_fields d') ∪ extra_fields model_fields d'.
Proof.
  unfold model_validate.
  destruct (check_base64_data_input (Mapping d)) as [checked|e'] eqn:Hcheck;
    [|by destruct (is_value_error e')].
  destruct checked as [d'|o]; [|done].
  destruct (field_errors model_fields d') eqn:Herr; [|done].
  intros [= <-]. exists d'. split; [done|]. split; [|done].
  by apply field_errors_nil.
Qed.

Lemma validate_field_agree (d1 d2 : gmap string value) (f : string * FieldInfo) :
  d1 !! f.1 = d2 !! f.1 -> validate_field d1 f = validate_field d2 f.
Proof. unfold validate_field. by intros ->. Qed.

(** The keys of a new instance are declared fields or keys of the merged
    keyword arguments. *)
Lemma super__init___keys (data : value) (kwargs e : gmap string value) (k : string) :
  super__init__ data kwargs = Ok e ->
  is_Some (e !! k) ->
  k ∈ model_fields.*1 \/ is_Some (kwargs !! k).
Proof.
  unfold super__init__. destruct (kwargs !! "data") eqn:Hdata; [done|].
  intros (d' & Hcheck & _ & ->)%model_validate_ok_inv Hk.
  apply validated_keys in Hk as [Hk|Hk]; [by left|].
  assert (Hd : is_Some ((<["data" := data]> kwargs) !! k) \/ k = "data").
  { apply check_base64_data_input_mapping in Hcheck
      as [[[= <-] _]|(v & decoded & _ & _ & _ & [= ->])]; [by left|].
    destruct (decide (k = "data_base64")) as [->|Hne];
      [by rewrite lookup_delete_eq in Hk; destruct Hk|].
    rewrite lookup_delete_ne in Hk by done.
    destruct (decide (k = "data")) as [->|Hne']; [by right|].
    left. by rewrite lookup_insert_ne in Hk by done. }
  destruct Hd as [Hd| ->]; [|left; by vm_compute; left].
  destruct (decide (k = "data")) as [->|Hne]; [left; by vm_compute; left|].
  right. by rewrite lookup_insert_ne in Hd by done.
Qed.

(** C5. Keys of the attribute mapping are lowercased at construction, and
    the names of keyword fields are stored as they are given: whenever the
    keyword names are lowercase, every attribute key of the resulting event
    is lowercase.  In particular this holds for every construction from an
    attribute mapping. *)
Theorem init_keys_lowercase (attributes : option (list (string * value)))
    (data : value) (K e : gmap string value) :
  __init__ attributes data K = Ok e ->
  (forall k, is_Some (K !! k) -> lower k = k) ->
  forall k, is_Some (e !! k) -> lower k = k.
Proof.
  unfold __init__. intros Hinit HK k Hk.
  assert (Hsuper : exists kwargs',
    super__init__ data kwargs' = Ok e
    /\ forall k, is_Some (kwargs' !! k) -> lower k = k).
  { destruct attributes as [[|kv items]|]; [by exists K| |by exists K].
    destruct (bool_decide (size K ≠ 0)); [done|].
    exists (lower_keys (kv :: items) ∪ K). split; [exact Hinit|].
    intros k' [Hk'|Hk']%lookup_union_is_Some; [|by apply HK].
    by eapply lower_keys_lowercase. }
  destruct Hsuper as (kwargs' & Hsuper & Hkw).
  destruct (super__init___keys _ _ _ k Hsuper Hk) as [Hf|Hin].
  - by apply model_fields_lowercase.
  - by apply Hkw.
Qed.

Lemma dict_lookup (self : gmap string value) (k : string) :
  __dict__ self !! k
  = if bool_decide (k ∈ declared_fields) then self !! k else None.
Proof.
  unfold __dict__. rewrite map_lookup_filter.
  destruct (self !! k) as [v|]; simpl; [|by case_bool_decide].
  case_bool_decide as Hk.
  - by rewrite option_guard_True.
  - by rewrite option_guard_False.
Qed.

(** The attribute read returns the encoded value of each declared field
    other than [data] that the instance holds, and nothing else. *)
Lemma get_attributes_lookup (self : gmap string value) (k : string) :
  _get_attributes self !! k
  = if bool_decide (k ∈ declared_fields /\ k <> "data")
    then best_effort_encode_attribute_value <$> self !! k
    else None.
Proof.
  unfold _get_attributes. rewrite lookup_fmap, map_lookup_filter, dict_lookup.
  destruct (decide (k ∈ declared_fields /\ k <> "data")) as [[Hin Hne]|Hk].
  - rewrite !bool_decide_eq_true_2 by done.
    destruct (self !! k) as [v|]; simpl; [|done].
    rewrite option_guard_True; [done|]. simpl.
    rewrite !elem_of_cons, elem_of_nil. intros [?|[->|[]]]; [done|].
    revert Hin. apply (bool_decide_unpack _). by vm_compute.
  - rewrite (bool_decide_eq_false_2 (_ /\ _)) by done.
    case_bool_decide as Hin; simpl; [|done].
    destruct (self !! k) as [v|]; simpl; [|done].
    rewrite option_guard_False; [done|]. simpl.
    intros Hn. apply Hn. destruct (decide (k = "data")) as [->|Hne]; [by left|].
    by destruct Hk.
Qed.

Lemma get_attributes_not_declared (self : gmap string value) (k : string) :
  k ∉ declared_fields -> _get_attributes self !! k = None.
Proof.
  intros Hk. rewrite get_attributes_lookup.
  rewrite bool_decide_eq_false_2; [done|]. by intros [? _].
Qed.

(** Construction from a non-empty mapping alone validates the lowercased
    mapping. *)
Lemma __init___mapping (A : list (string * value)) (data : value) :
  A <> [] -> __init__ (Some A) data ∅ = super__init__ data (lower_keys A).
Proof.
  intros HA. unfold __init__. destruct A as [|kv A]; [done|].
  rewrite bool_decide_eq_false_2 by (rewrite map_size_empty; auto).
  unfold mbind, result_bind. by rewrite (right_id_L ∅ (∪)).
Qed.

(** C2. When the case-normalized mapping has the required fields and holds
    the base64 encoding of [b] under ["data_base64"], the construction
    succeeds, [get_data()] is [b], the attribute map has no ["data_base64"]
    key, and the instance stores no ["data_base64"] entry beside its
    [data]. *)
Theorem data_base64_aliasing (b : list byte) (A : list (string * value))
    (data : value) :
  lower_keys A !! "data_base64" = Some (VStr (Base64.b64encode b)) ->
  lower_keys A !! "data" = None ->
  valid_fields model_fields (lower_keys A) ->
  exists e,
    __init__ (Some A) data ∅ = Ok e
    /\ get_data e = Ok (VBytes b)
    /\ _get_attributes e !! "data_base64" = None
    /\ e !! "data_base64" = None.
Proof.
  intros Hb64 Hdata Hvalid.
  set (d := <["data" := data]> (lower_keys A)).
  set (d' := delete "data_base64" (<["data" := VBytes b]> d)).
  assert (Hcheck : check_base64_data_input (Mapping d) = Ok (Mapping d')).
  { unfold check_base64_data_input, d.
    rewrite lookup_insert_ne, Hb64 by done. cbn [is_none].
    by rewrite b64decode_b64encode. }
  assert (Hdata' : validate_field d'
            ("data", Field (TOptional TAny) (Default VNone)) = Some (VBytes b)).
  { unfold validate_field, d'. simpl.
    by rewrite lookup_delete_ne, lookup_insert_eq by done. }
  assert (Hvalid' : valid_fields model_fields d').
  { unfold valid_fields, model_fields in *.
    repeat match goal with
           | H : Forall _ (_ :: _) |- _ => apply Forall_cons in H as [? H]
           end.
    repeat constructor; [by rewrite Hdata'|..];
      (erewrite validate_field_agree; [eassumption|]); simpl; unfold d', d;
      by rewrite lookup_delete_ne, !lookup_insert_ne by done. }
  exists (list_to_map (field_values model_fields d') ∪ extra_fields model_fields d').
  split; [|split; [|split]].
  - rewrite __init___mapping by (intros ->; discriminate Hb64).
    unfold super__init__. rewrite Hdata. by apply model_validate_ok.
  - unfold get_data.
    rewrite (validated_lookup_field model_fields d' _
               ("data", Field (TOptional TAny) (Default VNone)) (VBytes b));
      [done|apply model_fields_NoDup|by left|exact Hdata'].
  - apply get_attributes_not_declared.
    apply (bool_decide_unpack _). by vm_compute.
  - rewrite validated_lookup_extra; [by unfold d'; rewrite lookup_delete_eq|].
    apply (bool_decide_unpack _). by vm_compute.
Qed.

(** C8. From the mapping [{"type": "t", "source": "s"}] the construction
    succeeds and the new instance already holds the id returned by the
    default-id hook (non-empty when the hook's result is), the time returned
    by the default-time hook (not null), and the specversion ["1.0"]. *)
Theorem init_applies_defaults :
  default_id_selection_algorithm tt <> "" ->
  exists e,
    __init__ (Some [("type", VStr "t"); ("source", VStr "s")]) VNone ∅ = Ok e
    /\ e !! "id" = Some (VStr (default_id_selection_algorithm tt))
    /\ e !! "id" <> Some (VStr "")
    /\ e !! "time" = Some (VDatetime (default_time_selection_algorithm tt))
    /\ e !! "time" <> Some VNone
    /\ e !! "specversion" = Some (VSpecVersion "1.0").
Proof using Type coerce_str.
  intros Hid.
  set (d := <["data" := VNone]>
              (lower_keys [("type", VStr "t"); ("source", VStr "s")])
            : gmap string value).
  assert (Hvalid : valid_fields model_fields d).
  { unfold valid_fields, model_fields.
    repeat (apply Forall_cons; split); [..|apply Forall_nil_2];
      unfold d; vm_compute; rewrite ?coerce_str; by eexists. }
  exists (list_to_map (field_values model_fields d) ∪ extra_fields model_fields d).
  assert (Hlookup : forall f v, f ∈ model_fields -> validate_field d f = Some v ->
            (list_to_map (field_values model_fields d) ∪ extra_fields model_fields d)
              !! f.1 = Some v).
  { intros f v Hf Hv. apply validated_lookup_field; auto using model_fields_NoDup. }
  assert (Hidv : (list_to_map (field_values model_fields d)
                    ∪ extra_fields model_fields d) !! "id"
                 = Some (VStr (default_id_selection_algorithm tt))).
  { apply (Hlookup ("id", Field (TBase TStr)
               (DefaultFactory (fun u => VStr (default_id_selection_algorithm u)))));
      [|reflexivity].
    unfold model_fields. rewrite !elem_of_cons. auto. }
  assert (Htimev : (list_to_map (field_values model_fields d)
                      ∪ extra_fields model_fields d) !! "time"
                   = Some (VDatetime (default_time_selection_algorithm tt))).
  { apply (Hlookup ("time", Field (TOptional (TBase TDatetime))
               (DefaultFactory (fun u => VDatetime (default_time_selection_algorithm u)))));
      [|reflexivity].
    unfold model_fields. rewrite !elem_of_cons. auto 10. }
  split; [|split; [|split; [|split; [|split]]]].
  - rewrite __init___mapping by done.
    unfold super__init__.
    replace (lower_keys [("type", VStr "t"); ("source", VStr "s")] !! "data")
      with (@None value) by reflexivity.
    by apply model_validate_ok.
  - exact Hidv.
  - rewrite Hidv. intros [= Heq]. by apply Hid.
  - exact Htimev.
  - by rewrite Htimev.
  - apply (Hlookup ("specversion",
             Field (TBase TSpecVersion) (Default DEFAULT_SPECVERSION)));
      [|reflexivity].
    unfold model_fields. rewrite !elem_of_cons. auto 10.
Qed.

(** ** Serialization *)

(** C3. The tree produced by the JSON serialization hook is the result of
    parsing the bytes that the shared encoder [to_json] returns for the
    same event; events with the same canonical bytes give the same tree. *)
Theorem ce_json_dumps_delegates (self : gmap string value) :
  _ce_json_dumps self = structured_json_tree self
  /\ forall other, to_json other = to_json self ->
       _ce_json_dumps other = _ce_json_dumps self.
Proof.
  split.
  - unfold _ce_json_dumps, structured_json_tree, mbind, result_bind.
    by destruct (to_json self).
  - intros other Heq. unfold _ce_json_dumps. by rewrite Heq.
Qed.

(** ** Attribute read, set and delete *)

Lemma get_attributes_excludes_data (self : gmap string value) :
  _get_attributes self !! "data" = None.
Proof.
  rewrite get_attributes_lookup. rewrite bool_decide_eq_false_2; [done|].
  by intros [_ ?].
Qed.

Lemma get_attributes_declared (self : gmap string value) (k : string) :
  k ∈ declared_fields -> k <> "data" ->
  _get_attributes self !! k = best_effort_encode_attribute_value <$> self !! k.
Proof.
  intros Hin Hd. rewrite get_attributes_lookup.
  by rewrite bool_decide_eq_true_2.
Qed.

(** C7. Setting ["data"] through the attribute-set operation raises nothing
    and changes nothing: the payload and every attribute stay as they were.
    Setting any other key assigns the value to that attribute. *)
Theorem setitem_data_is_noop (self : gmap string value) (v : value) :
  (exists self',
     __setitem__ self "data" v = Ok self'
     /\ get_data self' = get_data self
     /\ forall k, self' !! k = self !! k)
  /\ forall key, key <> "data" ->
       exists self',
         __setitem__ self key v = Ok self'
         /\ self' !! key = Some v
         /\ forall k, k <> key -> self' !! k = self !! k.
Proof.
  split.
  - exists self. by repeat split.
  - intros key Hkey. exists (<[key := v]> self). split; [|split].
    + unfold __setitem__, setattr. by rewrite bool_decide_eq_true_2.
    + apply lookup_insert_eq.
    + intros k Hk. by apply lookup_insert_ne.
Qed.

(** C9. Setting ["data_base64"] after construction decodes nothing: the
    payload read by [get_data()] is unchanged and the value is stored as it
    is under the attribute name ["data_base64"]. *)
Theorem setitem_data_base64_not_decoded (self : gmap string value) (v : value) :
  exists self',
    __setitem__ self "data_base64" v = Ok self'
    /\ get_data self' = get_data self
    /\ self' !! "data_base64" = Some v
    /\ forall k, k <> "data_base64" -> self' !! k = self !! k.
Proof.
  exists (<["data_base64" := v]> self). split; [reflexivity|].
  split; [|split].
  - unfold get_data. by rewrite lookup_insert_ne.
  - apply lookup_insert_eq.
  - intros k Hk. by apply lookup_insert_ne.
Qed.

(** Deleting ["data"] raises [KeyError] before anything is changed. *)
Lemma delitem_data (self : gmap string value) :
  __delitem__ self "data" = Raise (KeyError "data").
Proof. reflexivity. Qed.

(** Deleting a stored key other than ["data"] removes it, also from the
    attribute map. *)
Lemma delitem_existing (self : gmap string value) (key : string) :
  key <> "data" -> is_Some (self !! key) ->
  exists self',
    __delitem__ self key = Ok self'
    /\ self' !! key = None
    /\ _get_attributes self' !! key = None
    /\ forall k, k <> key -> self' !! k = self !! k.
Proof.
  intros Hkey [v Hv]. exists (delete key self).
  unfold __delitem__, delattr. rewrite bool_decide_eq_false_2, Hv by done.
  split; [done|]. split; [apply lookup_delete_eq|]. split.
  - rewrite get_attributes_lookup, lookup_delete_eq. by case_bool_decide.
  - intros k Hk. by apply lookup_delete_ne.
Qed.

(** Deleting a key that is not stored raises the [AttributeError] of
    [delattr], not a [KeyError]. *)
Lemma delitem_missing (self : gmap string value) (key : string) :
  key <> "data" -> self !! key = None ->
  __delitem__ self key = Raise (AttributeError key).
Proof.
  intros Hkey Hnone. unfold __delitem__, delattr.
  by rewrite bool_decide_eq_false_2, Hnone.
Qed.

(** ** The base64 hook on its own *)

Lemma check_base64_data_input_other_keys (d d' : gmap string value) (k : string) :
  check_base64_data_input (Mapping d) = Ok (Mapping d') ->
  k <> "data" -> k <> "data_base64" -> d' !! k = d !! k.
Proof.
  intros Hcheck Hdata Hb64.
  apply check_base64_data_input_mapping in Hcheck
    as [[[= <-] _]|(v & decoded & _ & _ & _ & [= ->])]; [done|].
  by rewrite lookup_delete_ne, lookup_insert_ne.
Qed.

(** On a mapping that holds the base64 text of [b] under ["data_base64"],
    the hook puts the bytes [b] under ["data"] (over whatever was there),
    removes ["data_base64"] and leaves every other key alone. *)
Theorem check_base64_data_input_decodes (d : gmap string value) (b : list byte) :
  d !! "data_base64" = Some (VStr (Base64.b64encode b)) ->
  exists d',
    check_base64_data_input (Mapping d) = Ok (Mapping d')
    /\ d' !! "data" = Some (VBytes b)
    /\ d' !! "data_base64" = None
    /\ forall k, k <> "data" -> k <> "data_base64" -> d' !! k = d !! k.
Proof.
  intros Hb64.
  exists (delete "data_base64" (<["data" := VBytes b]> d)).
  split; [|split; [|split]].
  - unfold check_base64_data_input. rewrite Hb64. cbn [is_none].
    by rewrite b64decode_b64encode.
  - by rewrite lookup_delete_ne, lookup_insert_eq.
  - apply lookup_delete_eq.
  - intros k Hdata Hk. by rewrite lookup_delete_ne, lookup_insert_ne.
Qed.

Lemma check_base64_data_input_output (input : raw_input) (d' : gmap string value) :
  check_base64_data_input input = Ok (Mapping d') ->
  d' !! "data_base64" = None \/ d' !! "data_base64" = Some VNone.
Proof.
  intros Hcheck. destruct input as [d|o]; [|done].
  apply check_base64_data_input_mapping in Hcheck
    as [[[= <-] H]|(v & decoded & _ & _ & _ & [= ->])]; [exact H|].
  left. apply lookup_delete_eq.
Qed.

(** What the hook returns holds no non-null ["data_base64"], and the hook
    maps it to itself. *)
Theorem check_base64_data_input_idempotent (input out : raw_input) :
  check_base64_data_input input = Ok out ->
  check_base64_data_input out = Ok out
  /\ forall d', out = Mapping d' ->
       d' !! "data_base64" = None \/ d' !! "data_base64" = Some VNone.
Proof.
  intros Hcheck.
  assert (Hout : forall d', out = Mapping d' ->
            d' !! "data_base64" = None \/ d' !! "data_base64" = Some VNone).
  { intros d' ->. by eapply check_base64_data_input_output. }
  split; [|exact Hout].
  destruct out as [d'|o]; [|done].
  unfold check_base64_data_input.
  by destruct (Hout d' eq_refl) as [-> | ->].
Qed.

(** ** Construction: the merged keyword arguments *)

Lemma __init___compatible (attributes : option (list (string * value)))
    (data : value) (K : gmap string value) :
  attributes = None \/ attributes = Some [] \/ K = ∅ ->
  __init__ attributes data K = super__init__ data (merged_kwargs attributes K).
Proof.
  intros H. unfold __init__, merged_kwargs.
  destruct attributes as [[|kv items]|]; [done| |done].
  destruct H as [H|[H| ->]]; [done|done|].
  by rewrite bool_decide_eq_false_2 by (rewrite map_size_empty; auto).
Qed.

Lemma __init___ok_inv (attributes : option (list (string * value)))
    (data : value) (K e : gmap string value) :
  __init__ attributes data K = Ok e ->
  super__init__ data (merged_kwargs attributes K) = Ok e.
Proof.
  unfold __init__, merged_kwargs.
  destruct attributes as [[|kv items]|]; [done| |done].
  by destruct (bool_decide (size K ≠ 0)).
Qed.

Lemma super__init___ok_inv (data : value) (kwargs e : gmap string value) :
  super__init__ data kwargs = Ok e ->
  kwargs !! "data" = None
  /\ exists d',
       check_base64_data_input (Mapping (<["data" := data]> kwargs)) = Ok (Mapping d')
       /\ valid_fields model_fields d'
       /\ e = list_to_map (field_values model_fields d') ∪ extra_fields model_fields d'.
Proof.
  unfold super__init__. destruct (kwargs !! "data") eqn:Hdata; [done|].
  intros H. split; [done|]. by apply model_validate_ok_inv.
Qed.

(** A declared field that the merged arguments give holds its validated
    value; one that they omit holds the value of its default rule. *)
Lemma super__init___field (data : value) (kwargs e : gmap string value)
    (f : string * FieldInfo) :
  super__init__ data kwargs = Ok e ->
  f ∈ model_fields -> f.1 <> "data" ->
  is_Some (e !! f.1)
  /\ e !! f.1 = validate_field kwargs f.
Proof.
  intros (_ & d' & Hcheck & Hvalid & ->)%super__init___ok_inv Hf Hname.
  assert (Hb64 : f.1 <> "data_base64").
  { intros Heq. revert Hf. unfold model_fields. rewrite !elem_of_cons, elem_of_nil.
    destruct f as [name info]; simpl in Heq; subst name.
    intros H. repeat destruct H as [[=]|H]; done. }
  assert (Hsome : is_Some (validate_field d' f)).
  { unfold valid_fields in Hvalid. rewrite Forall_forall in Hvalid. by apply Hvalid. }
  destruct Hsome as [v Hv].
  rewrite (validated_lookup_field model_fields d' _ f v);
    [|apply model_fields_NoDup|done|done].
  split; [by eexists|].
  rewrite <- Hv. apply validate_field_agree.
  rewrite (check_base64_data_input_other_keys _ _ _ Hcheck) by done.
  by rewrite lookup_insert_ne.
Qed.

(** A mapping that holds a ["data"] key, in any case, cannot be used: the
    payload is always passed by name to the base constructor, and the
    duplicate is a [TypeError]. *)
Theorem init_data_key_in_mapping_raises (A : list (string * value)) (data : value) :
  is_Some (lower_keys A !! "data") ->
  __init__ (Some A) data ∅
  = Raise (TypeError "got multiple values for keyword argument 'data'").
Proof.
  intros [v Hv].
  rewrite __init___mapping by (intros ->; discriminate Hv).
  unfold super__init__. by rewrite Hv.
Qed.

Lemma lower_keys_Forall2 (A B : list (string * value)) :
  Forall2 (fun a b => lower a.1 = lower b.1 /\ a.2 = b.2) A B ->
  lower_keys A = lower_keys B.
Proof.
  unfold lower_keys. generalize (∅ : gmap string value).
  intros m H. revert m.
  induction H as [|a b A B [Hk Hv] _ IH]; intros m; [done|].
  simpl. rewrite Hk, Hv. apply IH.
Qed.

(** The case of the keys of the mapping does not matter: two mappings whose
    items agree, in order, up to the case of the keys construct the same
    event or raise the same exception. *)
Theorem init_mapping_case_insensitive (A B : list (string * value))
    (data : value) (K : gmap string value) :
  Forall2 (fun a b => lower a.1 = lower b.1 /\ a.2 = b.2) A B ->
  __init__ (Some A) data K = __init__ (Some B) data K.
Proof.
  intros H. pose proof (lower_keys_Forall2 A B H) as Heq.
  unfold __init__. destruct H as [|a b A B Hab HAB]; [done|].
  by rewrite Heq.
Qed.

(** When two keys of the mapping differ only by case, the value of the
    later item is the one that is kept. *)
Theorem lower_keys_last_wins (l1 l2 : list (string * value)) (k : string) (v : value) :
  Forall (fun kv => lower kv.1 <> lower k) l2 ->
  lower_keys (l1 ++ (k, v) :: l2) !! lower k = Some v.
Proof.
  unfold lower_keys. rewrite foldl_app. simpl.
  generalize (foldl (fun m kv => <[lower kv.1 := kv.2]> m) (∅ : gmap string value) l1).
  intros m Hl2.
  assert (Hgen : forall m' : gmap string value, m' !! lower k = Some v ->
            foldl (fun m kv => <[lower kv.1 := kv.2]> m) m' l2 !! lower k = Some v).
  { induction Hl2 as [|kv l2 Hkv _ IH]; intros m' Hm'; [done|].
    simpl. apply IH. by rewrite lookup_insert_ne. }
  apply Hgen, lookup_insert_eq.
Qed.

(** ** Construction: what a new instance holds, in general *)

Lemma __init___extra_lookup (attributes : option (list (string * value)))
    (data : value) (K e : gmap string value) (k : string) :
  __init__ attributes data K = Ok e ->
  k ∉ model_fields.*1 -> k <> "data_base64" ->
  e !! k = merged_kwargs attributes K !! k.
Proof.
  intros Hinit Hk Hb64.
  apply __init___ok_inv, super__init___ok_inv in Hinit as (_ & d' & Hcheck & _ & ->).
  assert (Hdata : k <> "data").
  { intros ->. apply Hk. unfold model_fields. simpl. by left. }
  rewrite validated_lookup_extra by done.
  rewrite (check_base64_data_input_other_keys _ _ _ Hcheck) by done.
  by rewrite lookup_insert_ne.
Qed.

(** Extension attributes pass through: a key that is neither a declared field
    nor ["data_base64"] is in the new instance exactly when the merged
    arguments have it, with the same value. *)
Theorem init_extension_passthrough (attributes : option (list (string * value)))
    (data : value) (K e : gmap string value) (k : string) :
  __init__ attributes data K = Ok e ->
  k ∉ model_fields.*1 -> k <> "data_base64" ->
  e !! k = merged_kwargs attributes K !! k.
Proof.
  intros Hinit Hk Hb64.
  apply __init___ok_inv, super__init___ok_inv in Hinit as (_ & d' & Hcheck & _ & ->).
  assert (Hdata : k <> "data").
  { intros ->. apply Hk. unfold model_fields. simpl. by left. }
  rewrite validated_lookup_extra by done.
  rewrite (check_base64_data_input_other_keys _ _ _ Hcheck) by done.
  by rewrite lookup_insert_ne.
Qed.

(** A new instance never holds encoded payload text: its ["data_base64"]
    entry is absent, or null when the input gave a null one. *)
Theorem init_leaves_no_data_base64 (attributes : option (list (string * value)))
    (data : value) (K e : gmap string value) :
  __init__ attributes data K = Ok e ->
  e !! "data_base64" = None \/ e !! "data_base64" = Some VNone.
Proof.
  intros Hinit.
  apply __init___ok_inv, super__init___ok_inv in Hinit as (_ & d' & Hcheck & _ & ->).
  rewrite validated_lookup_extra by (apply (bool_decide_unpack _); by vm_compute).
  by eapply check_base64_data_input_output.
Qed.

Lemma model_fields_names : model_fields.*1 = declared_fields.
Proof. reflexivity. Qed.

Lemma __init___declared_field (attributes : option (list (string * value)))
    (data : value) (K e : gmap string value) (name : string) :
  __init__ attributes data K = Ok e ->
  name ∈ declared_fields -> is_Some (e !! name).
Proof.
  intros Hinit Hname.
  apply __init___ok_inv, super__init___ok_inv in Hinit as (_ & d' & _ & Hvalid & ->).
  rewrite <- model_fields_names in Hname.
  apply list_elem_of_fmap in Hname as (f & -> & Hf).
  unfold valid_fields in Hvalid. rewrite Forall_forall in Hvalid.
  destruct (Hvalid f Hf) as [v Hv].
  exists v. apply validated_lookup_field; auto using model_fields_NoDup.
Qed.

(** Every new instance holds all the declared fields, so reading the payload
    of a new instance never fails. *)
Theorem init_has_declared_fields (attributes : option (list (string * value)))
    (data : value) (K e : gmap string value) :
  __init__ attributes data K = Ok e ->
  (forall name, name ∈ model_fields.*1 -> is_Some (e !! name))
  /\ exists v, get_data e = Ok v.
Proof.
  intros Hinit.
  apply __init___ok_inv, super__init___ok_inv in Hinit as (_ & d' & _ & Hvalid & ->).
  assert (Hall : forall name, name ∈ model_fields.*1 ->
            is_Some ((list_to_map (field_values model_fields d')
                        ∪ extra_fields model_fields d') !! name)).
  { intros name (f & -> & Hf)%list_elem_of_fmap.
    unfold valid_fields in Hvalid. rewrite Forall_forall in Hvalid.
    destruct (Hvalid f Hf) as [v Hv].
    exists v. apply validated_lookup_field; auto using model_fields_NoDup. }
  split; [exact Hall|].
  destruct (Hall "data") as [v Hv]; [unfold model_fields; simpl; by left|].
  exists v. unfold get_data. by rewrite Hv.
Qed.

(** The payload argument is stored as it is, null included, unless the
    merged arguments hold a non-null ["data_base64"]. *)
Theorem init_stores_payload (attributes : option (list (string * value)))
    (data : value) (K e : gmap string value) :
  __init__ attributes data K = Ok e ->
  merged_kwargs attributes K !! "data_base64" = None
  \/ merged_kwargs attributes K !! "data_base64" = Some VNone ->
  get_data e = Ok data.
Proof.
  intros Hinit Hb64.
  apply __init___ok_inv, super__init___ok_inv in Hinit as (_ & d' & Hcheck & _ & ->).
  assert (Hd' : d' = <["data" := data]> (merged_kwargs attributes K)).
  { apply check_base64_data_input_mapping in Hcheck
      as [[[= <-] _]|(v & decoded & Hv & Hnone & _)]; [done|].
    rewrite lookup_insert_ne in Hv by done.
    destruct Hb64 as [Hb64|Hb64]; rewrite Hb64 in Hv; [done|].
    injection Hv as <-. done. }
  unfold get_data.
  rewrite (validated_lookup_field model_fields d' _
             ("data", Field (TOptional TAny) (Default VNone)) data);
    [done|apply model_fields_NoDup|unfold model_fields; by left|].
  unfold validate_field. simpl. rewrite Hd', lookup_insert_eq.
  by destruct data.
Qed.

(** A failure of the base64 decoder does not leave the constructor as it
    is: the hook is a validator of the framework, so a [ValueError] of the
    decoder (bad padding, a string that is not ASCII) becomes a
    [ValidationError] that names no field. *)
Theorem init_wraps_decode_error (attributes : option (list (string * value)))
    (data : value) (K : gmap string value) (v : value) (err : exn) :
  attributes = None \/ attributes = Some [] \/ K = ∅ ->
  merged_kwargs attributes K !! "data" = None ->
  merged_kwargs attributes K !! "data_base64" = Some v ->
  is_none v = false ->
  Base64.b64decode v = Raise err ->
  is_value_error err = true ->
  __init__ attributes data K = Raise (ValidationError []).
Proof.
  intros Hcompat Hdata Hv Hnone Hdec Hval.
  rewrite __init___compatible by done.
  unfold super__init__. rewrite Hdata.
  unfold model_validate, check_base64_data_input.
  rewrite lookup_insert_ne, Hv, Hnone, Hdec by done.
  unfold mbind, result_bind. by rewrite Hval.
Qed.

(** A string given for [source], [id], [type], [subject], [datacontenttype]
    or [dataschema] is stored as it is; in particular a given id is not
    replaced by a generated one. *)
Theorem init_keeps_supplied_strings (attributes : option (list (string * value)))
    (data : value) (K e : gmap string value) (name s : string) :
  __init__ attributes data K = Ok e ->
  name ∈ ["source"; "id"; "type"; "subject"; "datacontenttype"; "dataschema"] ->
  merged_kwargs attributes K !! name = Some (VStr s) ->
  e !! name = Some (VStr s).
Proof using Type coerce_str.
  intros Hinit Hname Hm. apply __init___ok_inv in Hinit.
  assert (Hfield : forall info,
            (name, info) ∈ model_fields -> name <> "data" ->
            validate (field_annotation info) (VStr s) = Some (VStr s) ->
            e !! name = Some (VStr s)).
  { intros info Hin Hne Hval.
    destruct (super__init___field _ _ _ (name, info) Hinit Hin Hne) as [_ Heq].
    simpl in Heq. rewrite Heq. unfold validate_field. simpl. by rewrite Hm. }
  rewrite !elem_of_cons, elem_of_nil in Hname.
  destruct Hname as [->|[->|[->|[->|[->|[->|[]]]]]]].
  - apply (Hfield (Field (TBase TStr) Required)); [|done|apply coerce_str].
    unfold model_fields. rewrite !elem_of_cons. auto 10.
  - apply (Hfield (Field (TBase TStr)
             (DefaultFactory (fun u => VStr (default_id_selection_algorithm u)))));
      [|done|apply coerce_str].
    unfold model_fields. rewrite !elem_of_cons. auto 10.
  - apply (Hfield (Field (TBase TStr) Required)); [|done|apply coerce_str].
    unfold model_fields. rewrite !elem_of_cons. auto 10.
  - apply (Hfield (Field (TOptional (TBase TStr)) (Default VNone)));
      [|done|apply coerce_str].
    unfold model_fields. rewrite !elem_of_cons. auto 10.
  - apply (Hfield (Field (TOptional (TBase TStr)) (Default VNone)));
      [|done|apply coerce_str].
    unfold model_fields. rewrite !elem_of_cons. auto 10.
  - apply (Hfield (Field (TOptional (TBase TStr)) (Default VNone)));
      [|done|apply coerce_str].
    unfold model_fields. rewrite !elem_of_cons. auto 15.
Qed.

(** Whatever else the input holds, a field that the merged arguments omit
    gets its default in the new instance: the hooks' values for [id] and
    [time], the default specversion, null for the optional strings. *)
Theorem init_fills_omitted_fields (attributes : option (list (string * value)))
    (data : value) (K e : gmap string value) :
  __init__ attributes data K = Ok e ->
  (merged_kwargs attributes K !! "id" = None ->
   e !! "id" = Some (VStr (default_id_selection_algorithm tt)))
  /\ (merged_kwargs attributes K !! "time" = None ->
      e !! "time" = Some (VDatetime (default_time_selection_algorithm tt)))
  /\ (merged_kwargs attributes K !! "specversion" = None ->
      e !! "specversion" = Some DEFAULT_SPECVERSION)
  /\ (forall name, name ∈ ["subject"; "datacontenttype"; "dataschema"] ->
      merged_kwargs attributes K !! name = None -> e !! name = Some VNone).
Proof.
  intros Hinit. apply __init___ok_inv in Hinit.
  assert (Hfield : forall name info,
            (name, info) ∈ model_fields -> name <> "data" ->
            merged_kwargs attributes K !! name = None ->
            e !! name = match field_default info with
                        | Required => None
                        | Default v => Some v
                        | DefaultFactory g => Some (g tt)
                        end).
  { intros name info Hin Hne Hm.
    destruct (super__init___field _ _ _ (name, info) Hinit Hin Hne) as [_ Heq].
    simpl in Heq. rewrite Heq. unfold validate_field. simpl. by rewrite Hm. }
  split; [|split; [|split]].
  - intros Hm.
    apply (Hfield "id" (Field (TBase TStr)
             (DefaultFactory (fun u => VStr (default_id_selection_algorithm u)))));
      [|done|done].
    unfold model_fields. rewrite !elem_of_cons. auto 10.
  - intros Hm.
    apply (Hfield "time" (Field (TOptional (TBase TDatetime))
             (DefaultFactory (fun u => VDatetime (default_time_selection_algorithm u)))));
      [|done|done].
    unfold model_fields. rewrite !elem_of_cons. auto 10.
  - intros Hm.
    apply (Hfield "specversion"
             (Field (TBase TSpecVersion) (Default DEFAULT_SPECVERSION)));
      [|done|done].
    unfold model_fields. rewrite !elem_of_cons. auto 10.
  - intros name Hname Hm. rewrite !elem_of_cons, elem_of_nil in Hname.
    destruct Hname as [->|[->|[->|[]]]];
      (apply (Hfield _ (Field (TOptional (TBase TStr)) (Default VNone)));
       [|done|done]);
      unfold model_fields; rewrite !elem_of_cons; auto 15.
Qed.

(** A ["data_base64"] given as a keyword field is decoded like one given in
    the mapping: the payload is the decoded bytes and no ["data_base64"]
    entry is stored. *)
Theorem init_keyword_data_base64 (b : list byte) (data : value)
    (K : gmap string value) :
  K !! "data_base64" = Some (VStr (Base64.b64encode b)) ->
  K !! "data" = None ->
  valid_fields model_fields K ->
  exists e,
    __init__ None data K = Ok e
    /\ get_data e = Ok (VBytes b)
    /\ e !! "data_base64" = None.
Proof.
  intros Hb64 Hdata Hvalid.
  set (d := <["data" := data]> K).
  set (d' := delete "data_base64" (<["data" := VBytes b]> d)).
  assert (Hcheck : check_base64_data_input (Mapping d) = Ok (Mapping d')).
  { unfold check_base64_data_input, d.
    rewrite lookup_insert_ne, Hb64 by done. cbn [is_none].
    by rewrite b64decode_b64encode. }
  assert (Hdata' : validate_field d'
            ("data", Field (TOptional TAny) (Default VNone)) = Some (VBytes b)).
  { unfold validate_field, d'. simpl.
    by rewrite lookup_delete_ne, lookup_insert_eq by done. }
  assert (Hvalid' : valid_fields model_fields d').
  { unfold valid_fields in *. rewrite Forall_forall in Hvalid |- *.
    intros f Hf. destruct (decide (f.1 = "data")) as [Heq|Hne].
    - assert (f = ("data", Field (TOptional TAny) (Default VNone))) as ->.
      { revert Hf Heq. unfold model_fields. rewrite !elem_of_cons, elem_of_nil.
        intros H Heq. repeat destruct H as [->|H]; done. }
      by rewrite Hdata'.
    - assert (Hb : f.1 <> "data_base64").
      { revert Hf. unfold model_fields. rewrite !elem_of_cons, elem_of_nil.
        intros H. repeat destruct H as [->|H]; done. }
      erewrite validate_field_agree; [by apply Hvalid|].
      unfold d', d. by rewrite lookup_delete_ne, !lookup_insert_ne by done. }
  exists (list_to_map (field_values model_fields d') ∪ extra_fields model_fields d').
  split; [|split].
  - unfold __init__, mbind, result_bind, super__init__. rewrite Hdata.
    by apply model_validate_ok.
  - unfold get_data.
    rewrite (validated_lookup_field model_fields d' _
               ("data", Field (TOptional TAny) (Default VNone)) (VBytes b));
      [done|apply model_fields_NoDup|by left|exact Hdata'].
  - rewrite validated_lookup_extra; [by unfold d'; rewrite lookup_delete_eq|].
    apply (bool_decide_unpack _). by vm_compute.
Qed.

(** Without [source] or [type] no instance is created; when the hook has
    nothing to decode, the exception is a [ValidationError] that lists the
    missing field. *)
Theorem init_missing_required_field (attributes : option (list (string * value)))
    (data : value) (K : gmap string value) (name : string) :
  name ∈ ["source"; "type"] ->
  merged_kwargs attributes K !! name = None ->
  (forall e, __init__ attributes data K <> Ok e)
  /\ (attributes = None \/ attributes = Some [] \/ K = ∅ ->
      merged_kwargs attributes K !! "data" = None ->
      merged_kwargs attributes K !! "data_base64" = None ->
      exists errs,
        __init__ attributes data K = Raise (ValidationError errs)
        /\ name ∈ errs).
Proof.
  intros Hname Hm.
  assert (Hin : (name, Field (TBase TStr) Required) ∈ model_fields).
  { rewrite !elem_of_cons, elem_of_nil in Hname.
    unfold model_fields. rewrite !elem_of_cons.
    destruct Hname as [->|[->|[]]]; auto 10. }
  assert (Hne : name <> "data").
  { rewrite !elem_of_cons, elem_of_nil in Hname.
    by destruct Hname as [->|[->|[]]]. }
  split.
  - intros e Hinit. apply __init___ok_inv in Hinit.
    destruct (super__init___field _ _ _ _ Hinit Hin Hne) as [[v Hv] Heq].
    rewrite Hv in Heq. unfold validate_field in Heq. simpl in Heq.
    by rewrite Hm in Heq.
  - intros Hcompat Hdata Hb64. rewrite __init___compatible by done.
    unfold super__init__. rewrite Hdata.
    unfold model_validate, check_base64_data_input.
    rewrite lookup_insert_ne, Hb64 by done.
    set (d := <["data" := data]> (merged_kwargs attributes K)).
    assert (Herr : name ∈ field_errors model_fields d).
    { unfold field_errors. apply list_elem_of_omap.
      exists (name, Field (TBase TStr) Required). split; [exact Hin|].
      unfold validate_field, d. simpl.
      by rewrite lookup_insert_ne, Hm by done. }
    destruct (field_errors model_fields d) as [|x errs] eqn:Hfe.
    + by apply elem_of_nil in Herr.
    + by exists (x :: errs).
Qed.

(** ** Set, delete and read compose *)



(** No attribute set and no attribute deletion changes the payload. *)
Theorem payload_untouched_by_set_and_delete (self self' : gmap string value)
    (key : string) (v : value) :
  __setitem__ self key v = Ok self' \/ __delitem__ self key = Ok self' ->
  get_data self' = get_data self.
Proof.
  unfold __setitem__, setattr, __delitem__, delattr, get_data.
  intros [H|H].
  - case_bool_decide as Hkey; injection H as <-; [|done].
    by rewrite lookup_insert_ne.
  - case_bool_decide as Hkey; [done|].
    destruct (self !! key); [|done]. injection H as <-.
    by rewrite lookup_delete_ne.
Qed.

(** The attribute read follows a set of a declared field: for a declared
    field other than ["data"], the map read after the set is the map read
    before with the encoded value put under the key. *)
Theorem get_attributes_after_setitem (self : gmap string value) (key : string)
    (v : value) :
  key ∈ declared_fields -> key <> "data" ->
  exists self',
    __setitem__ self key v = Ok self'
    /\ _get_attributes self'
       = <[key := best_effort_encode_attribute_value v]> (_get_attributes self).
Proof.
  intros Hin Hkey. exists (<[key := v]> self). split.
  - unfold __setitem__, setattr. by rewrite bool_decide_eq_true_2.
  - apply map_eq. intros k. rewrite get_attributes_lookup.
    destruct (decide (key = k)) as [<-|Hne].
    + rewrite !lookup_insert_eq. by rewrite bool_decide_eq_true_2.
    + rewrite !lookup_insert_ne by done. by rewrite get_attributes_lookup.
Qed.



(** Whatever the input, the attribute map of a new instance has exactly the
    eight declared fields other than ["data"] as its keys: an extension
    attribute given at construction is stored on the instance but is not in
    the map. *)
Theorem get_attributes_of_new_event (attributes : option (list (string * value)))
    (data : value) (K e : gmap string value) (k : string) :
  __init__ attributes data K = Ok e ->
  is_Some (_get_attributes e !! k) <-> k ∈ declared_fields /\ k <> "data".
Proof.
  intros Hinit. rewrite get_attributes_lookup.
  case_bool_decide as Hk.
  - split; [done|]. intros _. destruct Hk as [Hin _].
    destruct (__init___declared_field _ _ _ _ _ Hinit Hin) as [v ->].
    by eexists.
  - split; [|done]. by intros [? ?].
Qed.

(** The classmethod [create] passes no keyword field, so it never raises the
    incompatibility error, whatever the mapping and the payload. *)
Theorem create_never_incompatible (attributes : list (string * value))
    (data : value) (msg : string) :
  create attributes data <> Raise (IncompatibleArgumentsError msg).
Proof.
  unfold create. intros Hraise.
  apply __init___incompatible_inv in Hraise as (? & _ & _ & Hne); done.
Qed.

End CloudEvent.

(** ** The model on concrete inputs *)

Abbreviation sample_init :=
  (__init__ Sample.default_id_selection_algorithm
     Sample.default_time_selection_algorithm Sample.coerce).

Example b64encode_xyz :
  Base64.b64encode [x78; x79; x7a] = "eHl6".
Proof. reflexivity. Qed.

Example b64decode_xyz :
  Base64.b64decode (VStr "eHl6") = Ok (VBytes [x78; x79; x7a]).
Proof. reflexivity. Qed.

Example b64decode_padded :
  Base64.b64decode (VStr "eHk=") = Ok (VBytes [x78; x79]).
Proof. reflexivity. Qed.

Example b64decode_bad_padding :
  Base64.b64decode (VStr "eHk") = Raise (binascii_Error "Incorrect padding").
Proof. reflexivity. Qed.

Example init_mixed_case_mapping :
  exists e,
    sample_init (Some [("type", VStr "t"); ("Source", VStr "s")]) VNone ∅ = Ok e
    /\ e !! "source" = Some (VStr "s")
    /\ e !! "Source" = None.
Proof. eexists. split; [vm_compute; reflexivity|]. by vm_compute. Qed.

Example init_missing_required_fields :
  sample_init (Some [("id", VStr "1")]) VNone ∅
  = Raise (ValidationError ["source"; "type"]).
Proof. vm_compute. reflexivity. Qed.

Example init_data_key_in_mapping :
  sample_init (Some [("type", VStr "t"); ("source", VStr "s"); ("data", VInt 1)])
    VNone ∅
  = Raise (TypeError "got multiple values for keyword argument 'data'").
Proof. vm_compute. reflexivity. Qed.

Lemma init_incompatible_arguments_witness :
  sample_init (Some [("type", VStr "t")]) VNone {["source" := VStr "s"]}
  = Raise (IncompatibleArgumentsError "Attributes dict and kwargs are incompatible.").
Proof.
  apply (init_incompatible_arguments Sample.default_id_selection_algorithm
           Sample.default_time_selection_algorithm Sample.coerce
           [("type", VStr "t")] VNone {["source" := VStr "s"]}).
  - discriminate.
  - apply insert_non_empty.
Defined.

Lemma data_base64_aliasing_witness :
  exists e,
    sample_init
      (Some [("type", VStr "t"); ("source", VStr "s"); ("Data_Base64", VStr "eHl6")])
      VNone ∅ = Ok e
    /\ get_data e = Ok (VBytes [x78; x79; x7a])
    /\ _get_attributes Sample.best_effort_encode_attribute_value e !! "data_base64" = None
    /\ e !! "data_base64" = None.
Proof.
  apply (data_base64_aliasing Sample.default_id_selection_algorithm
           Sample.default_time_selection_algorithm Sample.coerce
           Sample.best_effort_encode_attribute_value [x78; x79; x7a]).
  - reflexivity.
  - reflexivity.
  - repeat (apply Forall_cons; split); [..|apply Forall_nil_2];
      vm_compute; by eexists.
Defined.

(** The name of a keyword field is stored as it is given. *)
Lemma init_keyword_name_kept_uppercase :
  exists e,
    sample_init None VNone
      (<["type" := VStr "t"]> (<["source" := VStr "s"]> {["MyExt" := VStr "v"]}))
    = Ok e
    /\ e !! "MyExt" = Some (VStr "v")
    /\ lower "MyExt" <> "MyExt".
Proof.
  eexists. split; [vm_compute; reflexivity|].
  split; [vm_compute; reflexivity|discriminate].
Qed.

Lemma init_keys_lowercase_witness :
  exists e,
    sample_init
      (Some [("Type", VStr "t"); ("SOURCE", VStr "s");
             ("ComExampleExtension1", VStr "value")]) VNone ∅ = Ok e
    /\ is_Some (e !! "comexampleextension1")
    /\ lower "comexampleextension1" = "comexampleextension1".
Proof.
  eexists. split; [vm_compute; reflexivity|].
  split; [vm_compute; by eexists|].
  eapply (init_keys_lowercase Sample.default_id_selection_algorithm
            Sample.default_time_selection_algorithm Sample.coerce
            (Some [("Type", VStr "t"); ("SOURCE", VStr "s");
                   ("ComExampleExtension1", VStr "value")]) VNone ∅).
  - vm_compute. reflexivity.
  - intros k Hk. rewrite lookup_empty in Hk. by destruct Hk.
  - vm_compute. by eexists.
Defined.

Lemma init_applies_defaults_witness :
  exists e,
    sample_init (Some [("type", VStr "t"); ("source", VStr "s")]) VNone ∅ = Ok e
    /\ e !! "id" = Some (VStr (Sample.default_id_selection_algorithm tt))
    /\ e !! "id" <> Some (VStr "")
    /\ e !! "time" = Some (VDatetime (Sample.default_time_selection_algorithm tt))
    /\ e !! "time" <> Some VNone
    /\ e !! "specversion" = Some (VSpecVersion "1.0").
Proof.
  apply (init_applies_defaults Sample.default_id_selection_algorithm
           Sample.default_time_selection_algorithm Sample.coerce).
  - intros s. reflexivity.
  - discriminate.
Defined.

(** C4. The attribute read goes over the instance dictionary, which holds
    the declared fields only: an extension attribute given at construction
    is stored on the instance, but it is not a key of the map that the read
    returns. *)
Theorem get_attributes_drops_extension_attribute :
  (e ← sample_init
         (Some [("type", VStr "t"); ("source", VStr "s");
                ("comexampleextension1", VStr "value")]) VNone ∅;
   Ok (e !! "comexampleextension1",
       _get_attributes Sample.best_effort_encode_attribute_value e
         !! "comexampleextension1"))
  = Ok (Some (VStr "value"), None).
Proof. vm_compute. reflexivity. Qed.

(** C6. Deleting ["data"] raises [KeyError]; deleting a key that is not
    stored raises the [AttributeError] of [delattr]. *)
Theorem delitem_missing_key_raises_attribute_error :
  (e ← sample_init (Some [("type", VStr "t"); ("source", VStr "s")]) VNone ∅;
   __delitem__ e "comexampleextension1")
  = Raise (AttributeError "comexampleextension1")
  /\ (e ← sample_init (Some [("type", VStr "t"); ("source", VStr "s")]) VNone ∅;
      __delitem__ e "data")
     = Raise (KeyError "data").
Proof. split; vm_compute; reflexivity. Qed.

(** ** The further properties on concrete inputs *)

Lemma instance_ok (r : result (gmap string value)) :
  Sample.succeeds r = true -> r = Ok (Sample.instance r).
Proof. by destruct r. Qed.

Lemma check_base64_data_input_decodes_witness :
  exists d',
    check_base64_data_input
      (Mapping (<["data" := VInt 1]> {["data_base64" := VStr "eHl6"]}))
    = Ok (Mapping d')
    /\ d' !! "data" = Some (VBytes [x78; x79; x7a])
    /\ d' !! "data_base64" = None
    /\ forall k, k <> "data" -> k <> "data_base64" ->
         d' !! k
         = (<["data" := VInt 1]> {["data_base64" := VStr "eHl6"]} : gmap string value) !! k.
Proof.
  apply (check_base64_data_input_decodes
           (<["data" := VInt 1]> {["data_base64" := VStr "eHl6"]})
           [x78; x79; x7a]).
  vm_compute. reflexivity.
Defined.

Lemma check_base64_data_input_idempotent_witness :
  exists out,
    check_base64_data_input (Mapping {["data_base64" := VStr "eHl6"]}) = Ok out
    /\ (check_base64_data_input out = Ok out
        /\ forall d', out = Mapping d' ->
             d' !! "data_base64" = None \/ d' !! "data_base64" = Some VNone).
Proof.
  eexists. split; [vm_compute; reflexivity|].
  apply (check_base64_data_input_idempotent
           (Mapping {["data_base64" := VStr "eHl6"]})).
  vm_compute. reflexivity.
Defined.

Lemma init_data_key_in_mapping_raises_witness :
  sample_init
    (Some [("type", VStr "t"); ("source", VStr "s"); ("Data", VInt 1)]) VNone ∅
  = Raise (TypeError "got multiple values for keyword argument 'data'").
Proof.
  apply (init_data_key_in_mapping_raises Sample.default_id_selection_algorithm
           Sample.default_time_selection_algorithm Sample.coerce).
  vm_compute. by eexists.
Defined.

Lemma init_mapping_case_insensitive_witness :
  sample_init (Some [("Type", VStr "t"); ("SOURCE", VStr "s")]) VNone ∅
  = sample_init (Some [("type", VStr "t"); ("source", VStr "s")]) VNone ∅.
Proof.
  apply (init_mapping_case_insensitive Sample.default_id_selection_algorithm
           Sample.default_time_selection_algorithm Sample.coerce).
  repeat constructor.
Defined.

Lemma lower_keys_last_wins_witness :
  lower_keys ([("ID", VStr "1")] ++ ("Id", VStr "2") :: [("type", VStr "t")])
    !! lower "Id" = Some (VStr "2").
Proof.
  apply (lower_keys_last_wins [("ID", VStr "1")] [("type", VStr "t")] "Id" (VStr "2")).
  apply Forall_cons. split; [|apply Forall_nil_2].
  intros H. vm_compute in H. discriminate H.
Defined.

Lemma init_extension_passthrough_witness :
  exists e,
    sample_init
      (Some [("type", VStr "t"); ("source", VStr "s");
             ("ComExampleExtension1", VStr "value")]) VNone ∅ = Ok e
    /\ e !! "comexampleextension1"
       = merged_kwargs
           (Some [("type", VStr "t"); ("source", VStr "s");
                  ("ComExampleExtension1", VStr "value")]) ∅
           !! "comexampleextension1".
Proof.
  exists (Sample.instance
            (sample_init (Some [("type", VStr "t"); ("source", VStr "s"); ("ComExampleExtension1", VStr "value")]) VNone ∅)).
  split; [apply instance_ok; vm_compute; reflexivity|].
  apply (init_extension_passthrough Sample.default_id_selection_algorithm
           Sample.default_time_selection_algorithm Sample.coerce
           (Some [("type", VStr "t"); ("source", VStr "s");
                  ("ComExampleExtension1", VStr "value")]) VNone ∅).
  - apply instance_ok. vm_compute. reflexivity.
  - apply (bool_decide_unpack _). vm_compute. exact I.
  - discriminate.
Defined.

Lemma init_leaves_no_data_base64_witness :
  exists e,
    sample_init None VNone
      (<["type" := VStr "t"]>
         (<["source" := VStr "s"]> {["data_base64" := VStr "eHl6"]})) = Ok e
    /\ (e !! "data_base64" = None \/ e !! "data_base64" = Some VNone).
Proof.
  exists (Sample.instance
            (sample_init None VNone (<["type" := VStr "t"]> (<["source" := VStr "s"]> {["data_base64" := VStr "eHl6"]})))).
  split; [apply instance_ok; vm_compute; reflexivity|].
  apply (init_leaves_no_data_base64 Sample.default_id_selection_algorithm
           Sample.default_time_selection_algorithm Sample.coerce None VNone
           (<["type" := VStr "t"]>
              (<["source" := VStr "s"]> {["data_base64" := VStr "eHl6"]}))).
  apply instance_ok. vm_compute. reflexivity.
Defined.

Lemma init_has_declared_fields_witness :
  exists e,
    sample_init (Some [("type", VStr "t"); ("source", VStr "s")]) VNone ∅ = Ok e
    /\ ((forall name,
           name ∈ (model_fields Sample.default_id_selection_algorithm
                     Sample.default_time_selection_algorithm).*1 ->
           is_Some (e !! name))
        /\ exists v, get_data e = Ok v).
Proof.
  exists (Sample.instance
            (sample_init (Some [("type", VStr "t"); ("source", VStr "s")]) VNone ∅)).
  split; [apply instance_ok; vm_compute; reflexivity|].
  apply (init_has_declared_fields Sample.default_id_selection_algorithm
           Sample.default_time_selection_algorithm Sample.coerce
           (Some [("type", VStr "t"); ("source", VStr "s")]) VNone ∅).
  apply instance_ok. vm_compute. reflexivity.
Defined.

Lemma init_stores_payload_witness :
  exists e,
    sample_init (Some [("type", VStr "t"); ("source", VStr "s")])
      (VStr "payload") ∅ = Ok e
    /\ get_data e = Ok (VStr "payload").
Proof.
  exists (Sample.instance
            (sample_init (Some [("type", VStr "t"); ("source", VStr "s")]) (VStr "payload") ∅)).
  split; [apply instance_ok; vm_compute; reflexivity|].
  apply (init_stores_payload Sample.default_id_selection_algorithm
           Sample.default_time_selection_algorithm Sample.coerce
           (Some [("type", VStr "t"); ("source", VStr "s")]) (VStr "payload") ∅).
  - apply instance_ok. vm_compute. reflexivity.
  - left. vm_compute. reflexivity.
Defined.

Lemma init_wraps_decode_error_witness :
  sample_init None VNone
    (<["type" := VStr "t"]>
       (<["source" := VStr "s"]> {["data_base64" := VStr "eHk"]}))
  = Raise (ValidationError []).
Proof.
  apply (init_wraps_decode_error Sample.default_id_selection_algorithm
           Sample.default_time_selection_algorithm Sample.coerce None VNone
           (<["type" := VStr "t"]>
              (<["source" := VStr "s"]> {["data_base64" := VStr "eHk"]}))
           (VStr "eHk") (binascii_Error "Incorrect padding")).
  - by left.
  - vm_compute. reflexivity.
  - vm_compute. reflexivity.
  - reflexivity.
  - vm_compute. reflexivity.
  - reflexivity.
Defined.

Lemma init_keeps_supplied_strings_witness :
  exists e,
    sample_init
      (Some [("type", VStr "t"); ("source", VStr "s"); ("ID", VStr "A234-1234-1234")])
      VNone ∅ = Ok e
    /\ e !! "id" = Some (VStr "A234-1234-1234").
Proof.
  exists (Sample.instance
            (sample_init (Some [("type", VStr "t"); ("source", VStr "s"); ("ID", VStr "A234-1234-1234")]) VNone ∅)).
  split; [apply instance_ok; vm_compute; reflexivity|].
  apply (init_keeps_supplied_strings Sample.default_id_selection_algorithm
           Sample.default_time_selection_algorithm Sample.coerce
           (fun s => eq_refl)
           (Some [("type", VStr "t"); ("source", VStr "s");
                  ("ID", VStr "A234-1234-1234")]) VNone ∅).
  - apply instance_ok. vm_compute. reflexivity.
  - apply (bool_decide_unpack _). vm_compute. exact I.
  - vm_compute. reflexivity.
Defined.

Lemma init_fills_omitted_fields_witness :
  exists e,
    sample_init (Some [("type", VStr "t"); ("source", VStr "s")]) VNone ∅ = Ok e
    /\ e !! "subject" = Some VNone.
Proof.
  exists (Sample.instance
            (sample_init (Some [("type", VStr "t"); ("source", VStr "s")]) VNone ∅)).
  split; [apply instance_ok; vm_compute; reflexivity|].
  apply (init_fills_omitted_fields Sample.default_id_selection_algorithm
           Sample.default_time_selection_algorithm Sample.coerce
           (Some [("type", VStr "t"); ("source", VStr "s")]) VNone ∅).
  - apply instance_ok. vm_compute. reflexivity.
  - apply (bool_decide_unpack _). vm_compute. exact I.
  - vm_compute. reflexivity.
Defined.

Lemma init_keyword_data_base64_witness :
  exists e,
    sample_init None VNone
      (<["type" := VStr "t"]>
         (<["source" := VStr "s"]> {["data_base64" := VStr "eHl6"]})) = Ok e
    /\ get_data e = Ok (VBytes [x78; x79; x7a])
    /\ e !! "data_base64" = None.
Proof.
  apply (init_keyword_data_base64 Sample.default_id_selection_algorithm
           Sample.default_time_selection_algorithm Sample.coerce
           [x78; x79; x7a]).
  - vm_compute. reflexivity.
  - vm_compute. reflexivity.
  - repeat (apply Forall_cons; split); [..|apply Forall_nil_2];
      vm_compute; by eexists.
Defined.

Lemma init_missing_required_field_witness :
  (forall e, sample_init (Some [("type", VStr "t")]) VNone ∅ <> Ok e)
  /\ (Some [("type", VStr "t")] = None \/ Some [("type", VStr "t")] = Some []
      \/ (∅ : gmap string value) = ∅ ->
      merged_kwargs (Some [("type", VStr "t")]) ∅ !! "data" = None ->
      merged_kwargs (Some [("type", VStr "t")]) ∅ !! "data_base64" = None ->
      exists errs,
        sample_init (Some [("type", VStr "t")]) VNone ∅
        = Raise (ValidationError errs)
        /\ "source" ∈ errs).
Proof.
  apply (init_missing_required_field Sample.default_id_selection_algorithm
           Sample.default_time_selection_algorithm Sample.coerce
           (Some [("type", VStr "t")]) VNone ∅ "source").
  - apply (bool_decide_unpack _). vm_compute. exact I.
  - vm_compute. reflexivity.
Defined.



Lemma payload_untouched_by_set_and_delete_witness :
  get_data (<["subject" := VStr "123"]> {["data" := VStr "payload"]})
  = get_data {["data" := VStr "payload"]}.
Proof.
  apply (payload_untouched_by_set_and_delete {["data" := VStr "payload"]}
           (<["subject" := VStr "123"]> {["data" := VStr "payload"]})
           "subject" (VStr "123")).
  left. vm_compute. reflexivity.
Defined.

Lemma get_attributes_after_setitem_witness :
  exists self',
    __setitem__ {["data" := VNone]} "subject" (VStr "123") = Ok self'
    /\ _get_attributes Sample.best_effort_encode_attribute_value self'
       = <["subject" := Sample.best_effort_encode_attribute_value (VStr "123")]>
           (_get_attributes Sample.best_effort_encode_attribute_value
              {["data" := VNone]}).
Proof.
  apply (get_attributes_after_setitem Sample.best_effort_encode_attribute_value
           {["data" := VNone]} "subject" (VStr "123")).
  - apply (bool_decide_unpack _). vm_compute. exact I.
  - discriminate.
Defined.



Lemma get_attributes_of_new_event_witness :
  exists e,
    sample_init
      (Some [("type", VStr "t"); ("source", VStr "s");
             ("comexampleextension1", VStr "value")]) VNone ∅ = Ok e
    /\ (is_Some (_get_attributes Sample.best_effort_encode_attribute_value e
                   !! "source")
        <-> "source" ∈ declared_fields /\ "source" <> "data").
Proof.
  exists (Sample.instance
            (sample_init
               (Some [("type", VStr "t"); ("source", VStr "s");
                      ("comexampleextension1", VStr "value")]) VNone ∅)).
  split; [apply instance_ok; vm_compute; reflexivity|].
  apply (get_attributes_of_new_event Sample.default_id_selection_algorithm
           Sample.default_time_selection_algorithm Sample.coerce
           Sample.best_effort_encode_attribute_value
           (Some [("type", VStr "t"); ("source", VStr "s");
                  ("comexampleextension1", VStr "value")]) VNone ∅).
  apply instance_ok. vm_compute. reflexivity.
Defined.
